(** * HumbleForwarder: a shallow embedding of [humble_forwarder.py]

    The Lambda handler receives an SES notification, fetches the stored
    message from S3, replaces its headers and re-submits it through SES.

    Modelling conventions.
    - A Python [str] is a [string]: a sequence of one-byte code points.
    - A header value read from a message is a [pyval]: [None] or the
      string the header prints as.  A message stores its header values
      as printed.
    - What the program puts into a header is a [pyobj]: [None], a [str],
      or a header object of [email.policy.SMTP], which is a [str] that
      knows the header name it was made for.  The policy treats the
      three differently when a header is stored: a header object made
      for the same name is stored as it is, any other string is refused
      when it has a line break inside and is otherwise parsed and
      rendered anew, and so is [None].  Parsing and rendering a value
      for a header name is the policy's [header_factory], a collaborator.
    - A message is the header list of [email.message.Message] (ordered,
      duplicates possible, names compared ignoring case) and a payload.
    - [new_headers] is a Python [dict]: an insertion-ordered association
      list with exact (case-sensitive) keys.
    - The trigger event is the SES notification, typed: a list of
      records, each with the message id, the verified recipients and the
      receipt's dict-valued entries.  A missing first record is the one
      malformation kept ([IndexError]).
    - Exceptions are values of [exn]; fallible code returns a [result].
    - S3, SES, the MIME parser, the serialiser, the header factory and
      the text encoder are collaborators, gathered in [Env]; the answers
      of S3 and SES may depend on the calls made so far, which are
      recorded in a [history].
    - Logging and [print] are not modelled. *)

From Stdlib Require Import Ascii String List Bool Arith NArith Lia.
From stdpp Require Import gmap strings list.

Set Implicit Arguments.

(** ** Python values, exceptions, results *)

Inductive pyval : Type :=
| PyNone
| PyStr (s : string).

(** An object that the program stores under a header name.  A header
    object is kept as the value it prints as and the lower-cased name it
    was made for, which is all that the policy looks at. *)
Inductive pyobj : Type :=
| Plain (v : pyval)
| HeaderObj (lname : string) (v : pyval).

(** The value of an object: a header object is the string it prints as. *)
Definition printed (o : pyobj) : pyval :=
  match o with
  | Plain v => v
  | HeaderObj _ v => v
  end.

Inductive exn : Type :=
| IndexError
| KeyError (key : string)
| TypeError (msg : string)
| ValueError (msg : string)
| ClientError (code : string)
| OtherError (name : string).

Inductive result (A : Type) : Type :=
| Ok (a : A)
| Raise (e : exn).

Arguments Ok {A} a.
Arguments Raise {A} e.

Definition rbind {A B} (r : result A) (k : A -> result B) : result B :=
  match r with
  | Ok a => k a
  | Raise e => Raise e
  end.

Notation "'let*' x ':=' c 'in' k" := (rbind c (fun x => k))
  (at level 10, x name, c at level 100, k at level 200).

(** Truth value of a Python object ([if v:]). *)
Definition str_truthy (s : string) : bool :=
  match s with
  | EmptyString => false
  | String _ _ => true
  end.

Definition py_truthy (v : pyval) : bool :=
  match v with
  | PyNone => false
  | PyStr s => str_truthy s
  end.

(** [str(v)], as an f-string prints it. *)
Definition py_str (v : pyval) : string :=
  match v with
  | PyNone => "None"
  | PyStr s => s
  end.

(** ** String methods *)

Module Str.

Definition in_range (lo hi n : N) : bool := (lo <=? n)%N && (n <=? hi)%N.

(** [str.lower] on one code point below 256: A-Z, and the Latin-1
    capitals except the multiplication sign. *)
Definition lower_char (c : ascii) : ascii :=
  let n := N_of_ascii c in
  if in_range 65 90 n || (in_range 192 222 n && negb (n =? 215)%N)
  then ascii_of_N (n + 32)
  else c.

Fixpoint lower (s : string) : string :=
  match s with
  | EmptyString => EmptyString
  | String c s' => String (lower_char c) (lower s')
  end.

Fixpoint startswith (s p : string) : bool :=
  match p, s with
  | EmptyString, _ => true
  | String _ _, EmptyString => false
  | String a p', String b s' => if Ascii.eqb a b then startswith s' p' else false
  end.

(** Code points that [str.strip] removes (below 256). *)
Definition is_space (c : ascii) : bool :=
  let n := N_of_ascii c in
  in_range 9 13 n || in_range 28 32 n || (n =? 133)%N || (n =? 160)%N.

Fixpoint lstrip (s : string) : string :=
  match s with
  | EmptyString => EmptyString
  | String c s' => if is_space c then lstrip s' else s
  end.

Fixpoint rev_onto (s acc : string) : string :=
  match s with
  | EmptyString => acc
  | String c s' => rev_onto s' (String c acc)
  end.

Definition rev (s : string) : string := rev_onto s EmptyString.

Definition rstrip (s : string) : string := rev (lstrip (rev s)).

Definition strip (s : string) : string := rstrip (lstrip s).

(** First component of [s.partition(sep)]. *)
Fixpoint before (sep : ascii) (s : string) : string :=
  match s with
  | EmptyString => EmptyString
  | String c s' => if Ascii.eqb c sep then EmptyString else String c (before sep s')
  end.

Fixpoint count (sep : ascii) (s : string) : nat :=
  match s with
  | EmptyString => 0
  | String c s' => (if Ascii.eqb c sep then 1 else 0) + count sep s'
  end.

(** ["x" * n] *)
Definition times (c : ascii) (n : N) : string :=
  N.iter n (String c) EmptyString.

Definition dquote : string := String (ascii_of_N 34) EmptyString.
Definition nl : string := String (ascii_of_N 10) EmptyString.

(** Code points at which [str.splitlines] ends a line (below 256): line
    feed, vertical tab, form feed, carriage return, the file, group and
    record separators, and next line. *)
Definition is_linebreak (c : ascii) : bool :=
  let n := N_of_ascii c in
  in_range 10 13 n || in_range 28 30 n || (n =? 133)%N.

(** [s.splitlines()]: the lines without their ends.  A carriage return
    followed by a line feed ends one line; a line end at the very end
    opens no further line. *)
Fixpoint splitlines (s : string) : list string :=
  match s with
  | EmptyString => []
  | String c s' =>
      if is_linebreak c then
        match s' with
        | String c' s'' =>
            if (N_of_ascii c =? 13)%N && (N_of_ascii c' =? 10)%N
            then EmptyString :: splitlines s''
            else EmptyString :: splitlines s'
        | EmptyString => [EmptyString]
        end
      else
        match splitlines s' with
        | [] => [String c EmptyString]
        | line :: lines => String c line :: lines
        end
  end.

End Str.

(** ** [email.message.EmailMessage] *)

Inductive payload : Type :=
| NoPayload
| StrPayload (s : string)
| Multipart (parts : list part)
with part : Type :=
| Part (hs : list (string * pyval)) (body : payload).

Record Message : Type := mkMessage {
  msg_headers : list (string * pyval);
  msg_payload : payload
}.

(** The content transfer encodings among which the content manager
    chooses for a text body. *)
Inductive transfer_encoding : Type :=
| SevenBit
| EightBit
| QuotedPrintable
| Base64.

Definition cte_name (cte : transfer_encoding) : string :=
  match cte with
  | SevenBit => "7bit"
  | EightBit => "8bit"
  | QuotedPrintable => "quoted-printable"
  | Base64 => "base64"
  end.

Module Msg.

Definition same_name (lname : string) (kv : string * pyval) : bool :=
  String.eqb (Str.lower (fst kv)) lname.

(** [name in msg] *)
Definition contains (m : Message) (name : string) : bool :=
  existsb (same_name (Str.lower name)) (msg_headers m).

(** [msg[name]] as a value: what the first header of that name prints
    as, [None] when missing. *)
Definition getitem (m : Message) (name : string) : pyval :=
  match find (same_name (Str.lower name)) (msg_headers m) with
  | Some kv => snd kv
  | None => PyNone
  end.

(** [msg[name]] as an object: the first header of that name as a header
    object, made for the name the field has in the message; [None] when
    missing. *)
Definition getitem_obj (m : Message) (name : string) : pyobj :=
  match find (same_name (Str.lower name)) (msg_headers m) with
  | Some kv => HeaderObj (Str.lower (fst kv)) (snd kv)
  | None => Plain PyNone
  end.

(** [msg.keys()]: a fresh list, duplicates included. *)
Definition keys (m : Message) : list string := map fst (msg_headers m).

(** [del msg[name]]: every occurrence goes; a missing name is no error. *)
Definition delitem (m : Message) (name : string) : Message :=
  {| msg_headers :=
       List.filter (fun kv => negb (same_name (Str.lower name) kv)) (msg_headers m);
     msg_payload := msg_payload m |}.

(** Header names that the registry of [email.policy.SMTP] allows once
    ([max_count = 1]); every other name is unlimited. *)
Definition unique_names : list string :=
  [ "subject"; "date"; "orig-date"; "sender"; "to"; "cc"; "bcc"; "from";
    "reply-to"; "mime-version"; "content-type"; "content-disposition";
    "content-transfer-encoding"; "message-id" ].

Definition header_max_count (name : string) : option nat :=
  if existsb (String.eqb (Str.lower name)) unique_names then Some 1 else None.

(** [policy.header_store_parse(name, value)], giving the stored value as
    it prints.  A header object made for this name, ignoring case, is
    stored as it is.  Otherwise a string that [splitlines] cuts into more
    than one line is refused, and whatever else comes ([None] too) is
    handed to the header factory. *)
Definition header_store_parse (header_factory : string -> pyval -> string)
           (name : string) (value : pyobj) : result pyval :=
  let parse_anew (v : pyval) : result pyval :=
    match v with
    | PyStr s =>
        if 1 <? length (Str.splitlines s)
        then Raise (ValueError
                      "Header values may not contain linefeed or carriage return characters")
        else Ok (PyStr (header_factory name v))
    | PyNone => Ok (PyStr (header_factory name v))
    end in
  match value with
  | HeaderObj lname v =>
      if String.eqb lname (Str.lower name) then Ok v else parse_anew v
  | Plain v => parse_anew v
  end.

(** [msg[name] = val]: appends; never overwrites.  A second header of a
    name that may occur once is refused; then the policy has its say on
    the value. *)
Definition setitem (header_factory : string -> pyval -> string)
           (m : Message) (name : string) (val : pyobj) : result Message :=
  let append :=
    let* v := header_store_parse header_factory name val in
    Ok {| msg_headers := msg_headers m ++ [(name, v)];
          msg_payload := msg_payload m |} in
  match header_max_count name with
  | Some max_count =>
      let found := length (List.filter (same_name (Str.lower name)) (msg_headers m)) in
      if max_count <=? found
      then Raise (ValueError ("There may be at most 1 " +:+ name +:+ " headers in a message"))
      else append
  | None => append
  end.

(** [msg[name] = token] for the headers that the content manager writes
    itself.  Their values are fixed tokens of the library (text/plain,
    with its charset parameter, the name of a transfer encoding, 1.0):
    strings of one line that the header factory renders as they are, so
    the token is what is stored. *)
Definition store_token (m : Message) (name : string) (token : string) : result Message :=
  let append :=
    {| msg_headers := msg_headers m ++ [(name, PyStr token)];
       msg_payload := msg_payload m |} in
  match header_max_count name with
  | Some max_count =>
      let found := length (List.filter (same_name (Str.lower name)) (msg_headers m)) in
      if max_count <=? found
      then Raise (ValueError ("There may be at most 1 " +:+ name +:+ " headers in a message"))
      else Ok append
  | None => Ok append
  end.

(** [msg.get_content_maintype()] *)
Definition get_content_type (m : Message) : string :=
  if contains m "content-type" then
    let ctype := Str.lower (Str.strip (Str.before ";" (py_str (getitem m "content-type")))) in
    if Nat.eqb (Str.count "/" ctype) 1 then ctype else "text/plain"
  else "text/plain".

Definition get_content_maintype (m : Message) : string :=
  Str.before "/" (get_content_type m).

(** [msg.clear_content()] *)
Definition clear_content (m : Message) : Message :=
  {| msg_headers :=
       List.filter (fun kv => negb (Str.startswith (Str.lower (fst kv)) "content-"))
              (msg_headers m);
     msg_payload := NoPayload |}.

(** [msg.replace_header(name, val)]: the first header of that name takes
    the value and keeps its place and spelling; [KeyError] without one.
    The value is stored as given: the one caller hands over a token of
    the library (see [store_token]). *)
Fixpoint replace_first (lname : string) (val : pyval) (hs : list (string * pyval))
  : option (list (string * pyval)) :=
  match hs with
  | [] => None
  | kv :: hs' =>
      if same_name lname kv then Some ((fst kv, val) :: hs')
      else match replace_first lname val hs' with
           | Some hs'' => Some (kv :: hs'')
           | None => None
           end
  end.

Definition replace_header (m : Message) (name : string) (val : pyval) : result Message :=
  match replace_first (Str.lower name) val (msg_headers m) with
  | Some hs => Ok {| msg_headers := hs; msg_payload := msg_payload m |}
  | None => Raise (KeyError name)
  end.

(** [msg.set_param('charset', 'utf-8', replace=True)] on a Content-Type
    that has no charset yet: the parameter is joined to the value and the
    header replaced. *)
Definition set_charset (m : Message) : result Message :=
  let ctype := py_str (getitem m "Content-Type") in
  replace_header m "Content-Type"
    (PyStr (ctype +:+ "; charset=" +:+ Str.dquote +:+ "utf-8" +:+ Str.dquote)).

(** [msg.set_content(text)] for a [str]: the content manager refuses a
    multipart message, clears the content, and stores the encoded text
    with its Content-Type and Content-Transfer-Encoding; [EmailMessage]
    then adds MIME-Version when missing.  [encode] is the library's
    choice of transfer encoding: it returns the encoding and the encoded
    payload. *)
Definition set_content (encode : string -> transfer_encoding * string)
           (m : Message) (text : string) : result Message :=
  if String.eqb (get_content_maintype m) "multipart"
  then Raise (TypeError "set_content not valid on multipart")
  else
    let m := clear_content m in
    let* m := store_token m "Content-Type" "text/plain" in
    let '(cte, data) := encode text in
    let m := {| msg_headers := msg_headers m; msg_payload := StrPayload data |} in
    let* m := set_charset m in
    let* m := store_token m "Content-Transfer-Encoding" (cte_name cte) in
    if contains m "MIME-Version" then Ok m
    else store_token m "MIME-Version" "1.0".

(** A new [EmailMessage(policy=email.policy.SMTP)] *)
Definition empty : Message := {| msg_headers := []; msg_payload := NoPayload |}.

End Msg.

(** ** Python [dict] with string keys *)

Module Dict.

Definition t : Type := list (string * pyobj).

Definition empty : t := [].

(** [d[k] = v]: an existing key keeps its position. *)
Fixpoint setitem (d : t) (k : string) (v : pyobj) : t :=
  match d with
  | [] => [(k, v)]
  | (k', v') :: d' =>
      if String.eqb k' k then (k', v) :: d' else (k', v') :: setitem d' k v
  end.

(** [d.get(k)] as a value: the string that the entry is, or [None];
    [d[k]] raises [KeyError] where this is [None]. *)
Fixpoint get (d : t) (k : string) : option pyval :=
  match d with
  | [] => None
  | (k', v') :: d' => if String.eqb k' k then Some (printed v') else get d' k
  end.

Definition contains (d : t) (k : string) : bool :=
  match get d k with Some _ => true | None => false end.

(** [d.items()]: the entries, in insertion order. *)
Definition items (d : t) : list (string * pyobj) := d.

End Dict.

(** ** Header rewriting *)

(** [config = dict(sender=..., recipient=...)] *)
Record RoutingConfig : Type := {
  sender : string;
  recipient : string
}.

Definition headers_to_keep : list string :=
  [ "MIME-Version"; "Content-Type"; "Content-Disposition";
    "Content-Transfer-Encoding"; "Date"; "Subject" ].

Definition get_new_message_headers
           (config : RoutingConfig) (ses_recipient : string) (message : Message) : Dict.t :=
  let new_headers := Dict.empty in
  (* Headers we keep unchanged *)
  let new_headers :=
    fold_left
      (fun new_headers header =>
         if Msg.contains message header
         then Dict.setitem new_headers header (Msg.getitem_obj message header)
         else new_headers)
      headers_to_keep new_headers in
  (* Headers we customize for forwarding logic *)
  let new_headers := Dict.setitem new_headers "To" (Plain (PyStr (recipient config))) in
  let new_headers :=
    if str_truthy (sender config)
    then Dict.setitem new_headers "From" (Plain (PyStr (sender config)))
    else Dict.setitem new_headers "From" (Plain (PyStr ses_recipient)) in
  let new_headers :=
    if py_truthy (Msg.getitem message "Reply-To")
    then Dict.setitem new_headers "Reply-To" (Msg.getitem_obj message "Reply-To")
    else Dict.setitem new_headers "Reply-To" (Msg.getitem_obj message "From") in
  new_headers.

(** First loop of [set_new_message_headers]:
    [for header in message.keys(): del message[header]]. *)
Definition clear_all_headers (message : Message) : Message :=
  fold_left Msg.delitem (Msg.keys message) message.

(** Second loop: [for (name, value) in new_headers.items(): message[name] = value];
    the first refused header ends it. *)
Fixpoint store_all (header_factory : string -> pyval -> string)
         (message : Message) (entries : list (string * pyobj)) : result Message :=
  match entries with
  | [] => Ok message
  | (name, value) :: rest =>
      let* message := Msg.setitem header_factory message name value in
      store_all header_factory message rest
  end.

Definition set_new_message_headers (header_factory : string -> pyval -> string)
           (message : Message) (new_headers : Dict.t) : result Message :=
  let message := clear_all_headers message in
  store_all header_factory message (Dict.items new_headers).

(** ** Error notification *)

Definition error_text (attempted_message : Message) (traceback_string : string) : string :=
  Str.strip
    (Str.nl +:+ "There was an error forwarding an email to SES." +:+ Str.nl
     +:+ Str.nl
     +:+ "Original Sender: " +:+ py_str (Msg.getitem attempted_message "Reply-To") +:+ Str.nl
     +:+ "Original Subject: " +:+ py_str (Msg.getitem attempted_message "Subject") +:+ Str.nl
     +:+ Str.nl
     +:+ "Traceback:" +:+ Str.nl
     +:+ Str.nl
     +:+ traceback_string +:+ Str.nl
     +:+ "        ").

Definition create_error_email (header_factory : string -> pyval -> string)
           (encode : string -> transfer_encoding * string)
           (attempted_message : Message) (traceback_string : string) : result Message :=
  let new_message := Msg.empty in
  let* new_message :=
    Msg.setitem header_factory new_message "From"
                (Msg.getitem_obj attempted_message "From") in
  let* new_message :=
    Msg.setitem header_factory new_message "To"
                (Msg.getitem_obj attempted_message "To") in
  let* new_message :=
    Msg.setitem header_factory new_message "Subject"
                (Plain (PyStr "Email forwarding error")) in
  let text := error_text attempted_message traceback_string in
  Msg.set_content encode new_message text.

(** ** The trigger event *)

(** The SES notification, restricted to the fields the handler reads.
    [receipt_entries] holds the dict-valued entries of the receipt (the
    verdicts among them), each a dict of strings. *)
Record Mail : Type := { messageId : string }.

Record Receipt : Type := {
  recipients : list string;
  receipt_entries : gmap string (gmap string string)
}.

Record Ses : Type := { mail : Mail; receipt : Receipt }.

Record EventRecord : Type := { ses : Ses }.

Record Event : Type := { Records : list EventRecord }.

(** [event['Records'][0]] *)
Definition first_record (event : Event) : result EventRecord :=
  match Records event with
  | r :: _ => Ok r
  | [] => Raise IndexError
  end.

Definition get_ses_recipients (event : Event) : result (list string) :=
  let* r := first_record event in
  let receipt := receipt (ses r) in
  Ok (recipients receipt).

Definition verdicts : list string :=
  [ "spamVerdict"; "virusVerdict"; "spfVerdict"; "dkimVerdict"; "dmarcVerdict" ].

Definition is_ses_spam (event : Event) : result bool :=
  let* r := first_record event in
  let receipt := receipt (ses r) in
  let is_fail := false in
  let is_fail :=
    fold_left
      (fun is_fail verdict =>
         match receipt_entries receipt !! verdict with
         | Some entry =>
             let status := entry !! "status" in
             if bool_decide (status = Some "FAIL") then true else is_fail
         | None => is_fail
         end)
      verdicts is_fail in
  Ok is_fail.

(** ** Collaborators and effects *)

(** Module-level configuration, read from the environment at start. *)
Record Settings : Type := {
  REGION : string;
  INCOMING_EMAIL_BUCKET : string;
  INCOMING_EMAIL_PREFIX : string;
  SENDER : string;
  RECIPIENT : string;
  TEST_LARGE_BODY : option string
}.

Definition bytes : Type := list Byte.byte.

(** A call to a collaborator. *)
Inductive call : Type :=
| S3GetObject (bucket key : string)
| SesSendRawEmail (region : string) (source : pyval) (destinations : list pyval) (data : string).

Definition history : Type := list call.

Record Env : Type := {
  (** [client_s3.get_object(Bucket, Key)['Body'].read()] *)
  s3_get_object : history -> string -> string -> result bytes;
  (** [BytesParser(policy=SMTP).parsebytes] *)
  parsebytes : bytes -> result Message;
  (** [message.as_string()] *)
  as_string : Message -> string;
  (** [client_ses.send_raw_email(...)['MessageId']] *)
  ses_send_raw_email : history -> string -> pyval -> list pyval -> string -> result string;
  (** [traceback.format_exc()] for the exception being handled *)
  format_exc : exn -> string;
  (** [policy.header_factory(name, value)], printed: the header that the
      policy makes of a value for a name *)
  header_factory : string -> pyval -> string;
  (** the content manager's transfer encoding of a text body *)
  encode_text : string -> transfer_encoding * string
}.

(** Computations that call collaborators and may raise. *)
Definition M (A : Type) : Type := history -> result A * history.

Definition ret {A} (a : A) : M A := fun h => (Ok a, h).

Definition raise {A} (e : exn) : M A := fun h => (Raise e, h).

Definition bind {A B} (c : M A) (k : A -> M B) : M B :=
  fun h =>
    match c h with
    | (Ok a, h') => k a h'
    | (Raise e, h') => (Raise e, h')
    end.

Definition lift {A} (r : result A) : M A := fun h => (r, h).

(** [try: c  except ...: handler e] where [handler] re-raises what it
    does not catch. *)
Definition try_except {A} (c : M A) (handler : exn -> M A) : M A :=
  fun h =>
    match c h with
    | (Ok a, h') => (Ok a, h')
    | (Raise e, h') => handler e h'
    end.

Notation "'let!' x ':=' c 'in' k" := (bind c (fun x => k))
  (at level 10, x name, c at level 100, k at level 200).

(** [for x in xs: body x] *)
Fixpoint for_each {A} (xs : list A) (body : A -> M unit) : M unit :=
  match xs with
  | [] => ret tt
  | x :: xs' => let! _ := body x in for_each xs' body
  end.

Section Dispatcher.

Variable cfg : Settings.
Variable env : Env.

(** The key of the stored message. *)
Definition object_path (message_id : string) : string :=
  if str_truthy (INCOMING_EMAIL_PREFIX cfg)
  then INCOMING_EMAIL_PREFIX cfg +:+ "/" +:+ message_id
  else message_id.

Definition get_message_from_s3 (message_id : string) : M Message :=
  let object_path := object_path message_id in
  let! raw_bytes :=
    (fun h => (s3_get_object env h (INCOMING_EMAIL_BUCKET cfg) object_path,
               h ++ [S3GetObject (INCOMING_EMAIL_BUCKET cfg) object_path])) in
  lift (parsebytes env raw_bytes).

Definition send_raw_email (message : Message) : M unit :=
  fun h =>
    let source := Msg.getitem message "From" in
    let destinations := [Msg.getitem message "To"] in
    let data := as_string env message in
    let response := ses_send_raw_email env h (REGION cfg) source destinations data in
    (match response with Ok _ => Ok tt | Raise e => Raise e end,
     h ++ [SesSendRawEmail (REGION cfg) source destinations data]).

(** [os.getenv(name)] as a condition *)
Definition getenv_truthy (v : option string) : bool :=
  match v with
  | Some s => str_truthy s
  | None => false
  end.

(** The [TEST_DEBUG_BODY] branch only logs and is left out. *)
Definition forward_mail (ses_recipient message_id : string) : M unit :=
  let! message := get_message_from_s3 message_id in
  let config := {| sender := SENDER cfg; recipient := RECIPIENT cfg |} in
  let new_headers := get_new_message_headers config ses_recipient message in
  let! message := lift (set_new_message_headers (header_factory env) message new_headers) in
  let! message :=
    if getenv_truthy (TEST_LARGE_BODY cfg)
    then lift (let message := Msg.clear_content message in
               Msg.set_content (encode_text env) message (Str.times "x" 20000000))
    else ret message in
  try_except (send_raw_email message)
    (fun e =>
       match e with
       | ClientError _ =>
           let traceback_string := format_exc env e in
           let! error_message :=
             lift (create_error_email (header_factory env) (encode_text env)
                                      message traceback_string) in
           send_raw_email error_message
       | _ => raise e
       end).

Definition lambda_handler (event : Event) : M unit :=
  let! r := lift (first_record event) in
  let message_id := messageId (mail (ses r)) in
  let! spam := lift (is_ses_spam event) in
  if spam : bool then ret tt
  else
    let! ses_recipients := lift (get_ses_recipients event) in
    for_each ses_recipients (fun ses_recipient => forward_mail ses_recipient message_id).

End Dispatcher.

(** ** Derived notions used in the statements *)

(** The allow-listed headers that the message has, in allow-list order,
    each with the value [message[header]]. *)
Definition kept_headers (message : Message) : list (string * pyval) :=
  map (fun header => (header, Msg.getitem message header))
      (List.filter (Msg.contains message) headers_to_keep).

(** The same entries as the objects that the rewriter puts in its
    mapping. *)
Definition kept_objects (message : Message) : list (string * pyobj) :=
  map (fun header => (header, Msg.getitem_obj message header))
      (List.filter (Msg.contains message) headers_to_keep).

(** The From that the rewriter computes. *)
Definition computed_from (config : RoutingConfig) (ses_recipient : string) : string :=
  if str_truthy (sender config) then sender config else ses_recipient.

(** Number of fetches from the message store in a history.  Every
    forwarding attempt starts with one. *)
Definition is_fetch (c : call) : bool :=
  match c with S3GetObject _ _ => true | SesSendRawEmail _ _ _ _ => false end.

Definition fetches (h : history) : nat := length (List.filter is_fetch h).

(** The Reply-To that the rewriter computes, as a value and as the
    object it puts in its mapping. *)
Definition computed_reply_to (message : Message) : pyval :=
  match Msg.getitem message "Reply-To" with
  | PyStr (String c s) => PyStr (String c s)
  | _ => Msg.getitem message "From"
  end.

Definition reply_to_object (message : Message) : pyobj :=
  if py_truthy (Msg.getitem message "Reply-To")
  then Msg.getitem_obj message "Reply-To"
  else Msg.getitem_obj message "From".

(** The values that a list of entries leaves in a message when every
    entry is stored through the policy; the first refusal ends it. *)
Fixpoint stored_headers (header_factory : string -> pyval -> string)
         (entries : list (string * pyobj)) : result (list (string * pyval)) :=
  match entries with
  | [] => Ok []
  | (name, value) :: rest =>
      let* v := Msg.header_store_parse header_factory name value in
      let* hs := stored_headers header_factory rest in
      Ok ((name, v) :: hs)
  end.

(** Number of submissions to the relay in a history. *)
Definition is_send (c : call) : bool :=
  match c with SesSendRawEmail _ _ _ _ => true | S3GetObject _ _ => false end.

Definition sends (h : history) : nat := length (List.filter is_send h).

(** The source and the destination of the submissions of an attempt for
    [ses_recipient]: the computed From and To as the policy renders them
    when they are stored in the message. *)
Definition rendered_from (cfg : Settings) (env : Env) (ses_recipient : string) : pyval :=
  PyStr (header_factory env "From"
           (PyStr (computed_from {| sender := SENDER cfg; recipient := RECIPIENT cfg |}
                                 ses_recipient))).

Definition rendered_to (cfg : Settings) (env : Env) : pyval :=
  PyStr (header_factory env "To" (PyStr (RECIPIENT cfg))).

(** What an attempt for [ses_recipient] may ask of the collaborators: the
    stored message under its key, and submissions from the rendered From
    to the rendered To alone. *)
Definition attempt_call (cfg : Settings) (env : Env) (message_id ses_recipient : string)
           (c : call) : Prop :=
  match c with
  | S3GetObject bucket key =>
      bucket = INCOMING_EMAIL_BUCKET cfg /\ key = object_path cfg message_id
  | SesSendRawEmail region source destinations _ =>
      region = REGION cfg
      /\ source = rendered_from cfg env ses_recipient
      /\ destinations = [rendered_to cfg env]
  end.

(** A header name that a message may carry once only. *)
Definition once_only (name : string) : bool :=
  match Msg.header_max_count name with Some _ => true | None => false end.

(** The once-only names of a mapping, lower-cased, in its order. *)
Definition once_only_names (d : Dict.t) : list string :=
  map (fun e => Str.lower (fst e))
      (List.filter (fun e => once_only (fst e)) (Dict.items d)).

(** A string has a code point that [str.strip] keeps. *)
Fixpoint has_ink (s : string) : bool :=
  match s with
  | EmptyString => false
  | String c s' => negb (Str.is_space c) || has_ink s'
  end.

(** ** Sample inputs *)

Module Examples.

(** A message addressed to three recipients, as in the unit tests. *)
Definition multiple_recipients : Message :=
  {| msg_headers :=
       [ ("Received", PyStr "from mail.users.com by inbound-smtp");
         ("MIME-Version", PyStr "1.0");
         ("From", PyStr "Alpha Sigma <user@users.com>");
         ("Date", PyStr "Sat, 29 Aug 2020 12:00:00 +0000");
         ("Subject", PyStr "test 3 addresses");
         ("To", PyStr "code@coder.dev, a@users.com, b@users.com");
         ("Received", PyStr "from localhost");
         ("Content-Type", PyStr "multipart/alternative; boundary=0000") ];
     msg_payload :=
       Multipart [ Part [("Content-Type", PyStr "text/plain")] (StrPayload "hello");
                   Part [("Content-Type", PyStr "text/html")] (StrPayload "<p>hello</p>") ] |}.

(** A message that names a Reply-To. *)
Definition reply_to : Message :=
  {| msg_headers :=
       [ ("From", PyStr "Alpha Sigma <user@users.com>");
         ("Reply-To", PyStr "My Alias <alias@alias.com>");
         ("Subject", PyStr "test reply-to");
         ("To", PyStr "code@coder.dev") ];
     msg_payload := StrPayload "hello" |}.

(** A message that the verified address sent to itself. *)
Definition self_addressed : Message :=
  {| msg_headers :=
       [ ("From", PyStr "code@coder.dev");
         ("To", PyStr "code@coder.dev");
         ("Subject", PyStr "note to self") ];
     msg_payload := StrPayload "remember the milk" |}.

(** A message whose From prints with a form feed after the display
    name, and which names no Reply-To. *)
Definition form_feed_sender : Message :=
  {| msg_headers :=
       [ ("From", PyStr (String "M" (String "a" (String "l"
                           (String (ascii_of_N 12) " <mal@users.com>")))));
         ("To", PyStr "code@coder.dev");
         ("Subject", PyStr "hello") ];
     msg_payload := StrPayload "hello" |}.

(** A message without From and Reply-To. *)
Definition anonymous : Message :=
  {| msg_headers :=
       [ ("To", PyStr "code@coder.dev");
         ("Subject", PyStr "no sender") ];
     msg_payload := StrPayload "hello" |}.

Definition config_default : RoutingConfig :=
  {| sender := ""; recipient := "someone@secret.com" |}.

Definition settings : Settings :=
  {| REGION := "us-east-1";
     INCOMING_EMAIL_BUCKET := "yourbucketname";
     INCOMING_EMAIL_PREFIX := "";
     SENDER := "";
     RECIPIENT := "to@anywhere.com";
     TEST_LARGE_BODY := None |}.

(** Settings whose recipient is written in angle brackets. *)
Definition settings_bracketed : Settings :=
  {| REGION := "us-east-1";
     INCOMING_EMAIL_BUCKET := "yourbucketname";
     INCOMING_EMAIL_PREFIX := "";
     SENDER := "";
     RECIPIENT := "<to@anywhere.com>";
     TEST_LARGE_BODY := None |}.

Definition status (s : string) : gmap string string := {[ "status" := s ]}.

Definition record (message_id : string) (rcpts : list string)
           (entries : gmap string (gmap string string)) : EventRecord :=
  {| ses := {| mail := {| messageId := message_id |};
               receipt := {| recipients := rcpts; receipt_entries := entries |} |} |}.

Definition all_pass : gmap string (gmap string string) :=
  {[ "spamVerdict" := status "PASS"; "virusVerdict" := status "PASS";
     "spfVerdict" := status "PASS"; "dkimVerdict" := status "PASS";
     "dmarcVerdict" := status "PASS"; "action" := {[ "type" := "Lambda" ]} ]}.

(** One record, two verified recipients, every verdict PASS. *)
Definition event_two_recipients : Event :=
  {| Records := [ record "msg1" ["code@coder.dev"; "code2@coder.dev"] all_pass ] |}.

(** The same with a failed virus scan, as in the unit tests. *)
Definition event_virus : Event :=
  {| Records :=
       [ record "msg1" ["code@coder.dev"; "code2@coder.dev"]
                (<["virusVerdict" := status "FAIL"]> all_pass) ] |}.

(** An event with a second record. *)
Definition event_two_records : Event :=
  {| Records :=
       [ record "msg1" ["code@coder.dev"] all_pass;
         record "msg2" ["code2@coder.dev"] all_pass ] |}.

Definition is_ses_call (c : call) : bool :=
  match c with SesSendRawEmail _ _ _ _ => true | S3GetObject _ _ => false end.

Definition plain_encoding (text : string) : transfer_encoding * string := (SevenBit, text).

Definition render (m : Message) : string :=
  py_str (Msg.getitem m "Subject").

(** A header factory cut down to what the samples need: under an address
    header [None] prints as None and an address in angle brackets loses
    them; under any other header [None] prints as nothing; every other
    string is rendered as it is. *)
Definition address_names : list string :=
  [ "from"; "to"; "reply-to"; "cc"; "bcc"; "sender" ].

Definition unbracket (s : string) : string :=
  match s with
  | String "<" inner =>
      match Str.rev inner with
      | String ">" rest => Str.rev rest
      | _ => s
      end
  | _ => s
  end.

Definition render_header (name : string) (v : pyval) : string :=
  let address := existsb (String.eqb (Str.lower name)) address_names in
  match v with
  | PyNone => if address then "None" else ""
  | PyStr s => if address then unbracket s else s
  end.

(** The bucket has no such object: every fetch raises. *)
Definition env_no_such_key : Env :=
  {| s3_get_object := fun _ _ _ => Raise (ClientError "NoSuchKey");
     parsebytes := fun _ => Ok multiple_recipients;
     as_string := render;
     ses_send_raw_email := fun _ _ _ _ _ => Ok "0001";
     format_exc := fun _ => "Traceback (most recent call last)";
     header_factory := render_header;
     encode_text := plain_encoding |}.

(** The relay rejects the first submission and accepts the next ones. *)
Definition env_rejects_first : Env :=
  {| s3_get_object := fun _ _ _ => Ok [];
     parsebytes := fun _ => Ok multiple_recipients;
     as_string := render;
     ses_send_raw_email := fun h _ _ _ _ =>
       if existsb is_ses_call h then Ok "0002"
       else Raise (ClientError "MessageRejected");
     format_exc := fun _ => "Traceback (most recent call last)";
     header_factory := render_header;
     encode_text := plain_encoding |}.

(** The relay is unreachable: a failure that is no [ClientError]. *)
Definition env_unreachable : Env :=
  {| s3_get_object := fun _ _ _ => Ok [];
     parsebytes := fun _ => Ok multiple_recipients;
     as_string := render;
     ses_send_raw_email := fun _ _ _ _ _ => Raise (OtherError "EndpointConnectionError");
     format_exc := fun _ => "Traceback (most recent call last)";
     header_factory := render_header;
     encode_text := plain_encoding |}.

(** Everything works. *)
Definition env_fine : Env :=
  {| s3_get_object := fun _ _ _ => Ok [];
     parsebytes := fun _ => Ok multiple_recipients;
     as_string := render;
     ses_send_raw_email := fun _ _ _ _ _ => Ok "0001";
     format_exc := fun _ => "Traceback (most recent call last)";
     header_factory := render_header;
     encode_text := plain_encoding |}.

(** Everything works, and the stored message is the one whose From
    prints with a form feed. *)
Definition env_form_feed : Env :=
  {| s3_get_object := fun _ _ _ => Ok [];
     parsebytes := fun _ => Ok form_feed_sender;
     as_string := render;
     ses_send_raw_email := fun _ _ _ _ _ => Ok "0001";
     format_exc := fun _ => "Traceback (most recent call last)";
     header_factory := render_header;
     encode_text := plain_encoding |}.

(** Settings with a key prefix. *)
Definition settings_prefixed : Settings :=
  {| REGION := "us-east-1";
     INCOMING_EMAIL_BUCKET := "yourbucketname";
     INCOMING_EMAIL_PREFIX := "inbox";
     SENDER := "";
     RECIPIENT := "to@anywhere.com";
     TEST_LARGE_BODY := None |}.

(** Settings with the fault injection switched on. *)
Definition settings_large_body : Settings :=
  {| REGION := "us-east-1";
     INCOMING_EMAIL_BUCKET := "yourbucketname";
     INCOMING_EMAIL_PREFIX := "";
     SENDER := "";
     RECIPIENT := "to@anywhere.com";
     TEST_LARGE_BODY := Some "1" |}.

(** An event without records. *)
Definition event_empty : Event := {| Records := [] |}.

(** An event whose receipt lists no recipient. *)
Definition event_no_recipient : Event :=
  {| Records := [ record "msg1" [] all_pass ] |}.

(** [multiple_recipients] with other routing headers: another To, a Cc,
    a differently spelled Subject line, no Received. *)
Definition other_routing : Message :=
  {| msg_headers :=
       [ ("Cc", PyStr "eve@elsewhere.org");
         ("To", PyStr "undisclosed-recipients:;");
         ("mime-version", PyStr "1.0");
         ("From", PyStr "Alpha Sigma <user@users.com>");
         ("Date", PyStr "Sat, 29 Aug 2020 12:00:00 +0000");
         ("SUBJECT", PyStr "test 3 addresses");
         ("Content-Type", PyStr "multipart/alternative; boundary=0000");
         ("To", PyStr "forged@elsewhere.org") ];
     msg_payload := msg_payload multiple_recipients |}.




End Examples.

(** * Properties *)

(** ** The unit tests of the source, on the sample inputs *)

Example test_header_changes :
  let new_headers :=
    get_new_message_headers Examples.config_default "code@coder.dev"
                            Examples.multiple_recipients in
  Dict.get new_headers "To" = Some (PyStr "someone@secret.com")
  /\ Dict.get new_headers "From" = Some (PyStr "code@coder.dev")
  /\ Dict.get new_headers "Subject" = Some (PyStr "test 3 addresses")
  /\ Dict.get new_headers "Reply-To" = Some (PyStr "Alpha Sigma <user@users.com>")
  /\ Dict.contains new_headers "Content-Disposition" = false.
Proof. repeat split. Qed.

Example test_header_changes_fixed_sender :
  let config := {| sender := "fixed@coder.dev"; recipient := "someone@secret.com" |} in
  let new_headers :=
    get_new_message_headers config "code@coder.dev" Examples.multiple_recipients in
  Dict.get new_headers "To" = Some (PyStr "someone@secret.com")
  /\ Dict.get new_headers "From" = Some (PyStr "fixed@coder.dev").
Proof. repeat split. Qed.

Example test_header_changes2 :
  let new_headers :=
    get_new_message_headers Examples.config_default "code@coder.dev" Examples.reply_to in
  Dict.get new_headers "Subject" = Some (PyStr "test reply-to")
  /\ Dict.get new_headers "Reply-To" = Some (PyStr "My Alias <alias@alias.com>")
  /\ exists message,
      set_new_message_headers Examples.render_header Examples.reply_to new_headers
      = Ok message
      /\ Msg.getitem message "From" = PyStr "code@coder.dev"
      /\ Msg.getitem message "To" = PyStr "someone@secret.com"
      /\ Msg.getitem message "Subject" = PyStr "test reply-to"
      /\ Msg.getitem message "Reply-To" = PyStr "My Alias <alias@alias.com>".
Proof. cbv zeta. split; [|split]; [reflexivity..|]. eexists. repeat split. Qed.

Example test_event_parsing :
  is_ses_spam Examples.event_virus = Ok true
  /\ get_ses_recipients Examples.event_virus = Ok ["code@coder.dev"; "code2@coder.dev"].
Proof. split; reflexivity. Qed.

(** A rejected event is not forwarded: no collaborator is called. *)
Example spam_is_dropped :
  lambda_handler Examples.settings Examples.env_fine Examples.event_virus []
  = (Ok tt, []).
Proof. vm_compute. reflexivity. Qed.

(** [str.splitlines] on the line ends that matter for a header value. *)
Example test_splitlines :
  map (fun s => length (Str.splitlines s))
      [ ""; "abc"; String "a" Str.nl;
        String "a" (String (ascii_of_N 10) "b");
        String "a" (String (ascii_of_N 13) (String (ascii_of_N 10) "b"));
        String "a" (String (ascii_of_N 11) "b");
        String "a" (String (ascii_of_N 12) "b");
        String "a" (String (ascii_of_N 133) "b");
        String "a" (String (ascii_of_N 31) "b") ]
  = [0; 1; 1; 2; 2; 2; 2; 2; 1].
Proof. reflexivity. Qed.

(** ** Dictionaries *)

Section DictFacts.

Lemma dict_setitem_fresh (d : Dict.t) k v :
  Dict.get d k = None -> Dict.setitem d k v = d ++ [(k, v)].
Proof.
  induction d as [|[k' v'] d IH]; simpl; [reflexivity|].
  destruct (String.eqb k' k); [discriminate|].
  intros H. now rewrite IH.
Qed.

Lemma dict_get_app (d1 d2 : Dict.t) k :
  Dict.get (d1 ++ d2) k =
  match Dict.get d1 k with Some v => Some v | None => Dict.get d2 k end.
Proof.
  induction d1 as [|[k' v'] d1 IH]; simpl; [reflexivity|].
  now destruct (String.eqb k' k).
Qed.

Lemma dict_get_tabulate_in (f : string -> pyobj) (l : list string) k :
  In k l -> Dict.get (map (fun h => (h, f h)) l) k = Some (printed (f k)).
Proof.
  induction l as [|h l IH]; simpl; [tauto|].
  destruct (String.eqb_spec h k) as [->|Hne]; [reflexivity|].
  intros [->|Hin]; [congruence|auto].
Qed.

Lemma dict_get_tabulate_notin (f : string -> pyobj) (l : list string) k :
  ~ In k l -> Dict.get (map (fun h => (h, f h)) l) k = None.
Proof.
  induction l as [|h l IH]; simpl; [reflexivity|].
  intros Hnot. destruct (String.eqb_spec h k) as [->|Hne]; [tauto|].
  apply IH. tauto.
Qed.

End DictFacts.

(** ** Headers as objects *)

Section HeaderObjects.

Variable message : Message.

(** A header read as an object carries the name asked for, ignoring
    case, and prints as the value read. *)
Lemma getitem_obj_spec name :
  Msg.getitem_obj message name
  = if Msg.contains message name
    then HeaderObj (Str.lower name) (Msg.getitem message name)
    else Plain PyNone.
Proof.
  unfold Msg.getitem_obj, Msg.getitem, Msg.contains.
  induction (msg_headers message) as [|kv l IH]; simpl; [reflexivity|].
  destruct (Msg.same_name (Str.lower name) kv) eqn:Hsame; simpl; [|exact IH].
  unfold Msg.same_name in Hsame. apply String.eqb_eq in Hsame. now rewrite Hsame.
Qed.

Lemma getitem_absent name :
  Msg.contains message name = false -> Msg.getitem message name = PyNone.
Proof.
  unfold Msg.getitem, Msg.contains.
  induction (msg_headers message) as [|kv l IH]; simpl; [reflexivity|].
  destruct (Msg.same_name (Str.lower name) kv); simpl; [discriminate|exact IH].
Qed.

Lemma printed_getitem_obj name :
  printed (Msg.getitem_obj message name) = Msg.getitem message name.
Proof.
  rewrite getitem_obj_spec.
  destruct (Msg.contains message name) eqn:Hc; [reflexivity|].
  simpl. now rewrite getitem_absent.
Qed.

Lemma printed_reply_to_object :
  printed (reply_to_object message) = computed_reply_to message.
Proof.
  unfold reply_to_object, computed_reply_to.
  destruct (Msg.getitem message "Reply-To") as [|[|c s]] eqn:Hreply; simpl py_truthy;
    cbv iota; rewrite printed_getitem_obj; congruence.
Qed.

(** Storing a header object under the name it was read from leaves its
    value as it is. *)
Lemma store_same_name factory name :
  Msg.contains message name = true ->
  Msg.header_store_parse factory name (Msg.getitem_obj message name)
  = Ok (Msg.getitem message name).
Proof.
  intros Hc. rewrite getitem_obj_spec, Hc. unfold Msg.header_store_parse.
  now rewrite String.eqb_refl.
Qed.

(** Storing it under another name is storing its value anew. *)
Lemma store_other_name factory name other :
  Str.lower name <> Str.lower other ->
  Msg.header_store_parse factory other (Msg.getitem_obj message name)
  = Msg.header_store_parse factory other (Plain (Msg.getitem message name)).
Proof.
  intros Hne. rewrite getitem_obj_spec.
  destruct (Msg.contains message name) eqn:Hc.
  - unfold Msg.header_store_parse.
    destruct (String.eqb_spec (Str.lower name) (Str.lower other)); [contradiction|reflexivity].
  - now rewrite getitem_absent.
Qed.

Lemma store_reply_to_object factory :
  Msg.header_store_parse factory "Reply-To" (reply_to_object message)
  = if py_truthy (Msg.getitem message "Reply-To")
    then Ok (Msg.getitem message "Reply-To")
    else Msg.header_store_parse factory "Reply-To" (Plain (Msg.getitem message "From")).
Proof.
  unfold reply_to_object.
  destruct (py_truthy (Msg.getitem message "Reply-To")) eqn:Htruthy.
  - apply store_same_name.
    destruct (Msg.contains message "Reply-To") eqn:Hc; [reflexivity|].
    rewrite getitem_absent in Htruthy by assumption. discriminate Htruthy.
  - apply store_other_name. discriminate.
Qed.

End HeaderObjects.

(** What the policy does with a value that is no header object of the
    name: a string of more than one line is refused, anything else is
    rendered by the header factory. *)
Lemma store_anew factory name (v : pyval) :
  Msg.header_store_parse factory name (Plain v)
  = match v with
    | PyStr s =>
        if 1 <? length (Str.splitlines s)
        then Raise (ValueError
                      "Header values may not contain linefeed or carriage return characters")
        else Ok (PyStr (factory name v))
    | PyNone => Ok (PyStr (factory name v))
    end.
Proof. reflexivity. Qed.


(** ** The rewriter's result, entry by entry *)

Section Rewriter.

Variable message : Message.

Let keep_step (new_headers : Dict.t) (header : string) : Dict.t :=
  if Msg.contains message header
  then Dict.setitem new_headers header (Msg.getitem_obj message header)
  else new_headers.

Lemma keep_loop (hs : list string) (d : Dict.t) :
  List.NoDup hs ->
  (forall h, In h hs -> Dict.get d h = None) ->
  fold_left keep_step hs d =
  d ++ map (fun h => (h, Msg.getitem_obj message h)) (List.filter (Msg.contains message) hs).
Proof.
  revert d. induction hs as [|h hs IH]; intros d Hnd Hfresh; simpl.
  - now rewrite app_nil_r.
  - inversion Hnd as [|? ? Hnotin Hnd']; subst.
    unfold keep_step at 2.
    destruct (Msg.contains message h) eqn:Hc.
    + rewrite IH; trivial.
      * rewrite dict_setitem_fresh by (apply Hfresh; now left).
        simpl. now rewrite <- app_assoc.
      * intros h' Hin. rewrite dict_setitem_fresh by (apply Hfresh; now left).
        rewrite dict_get_app, Hfresh by now right. simpl.
        destruct (String.eqb_spec h h') as [->|]; [contradiction|reflexivity].
    + apply IH; trivial. intros h' Hin. apply Hfresh. now right.
Qed.

Lemma headers_to_keep_nodup : List.NoDup headers_to_keep.
Proof.
  unfold headers_to_keep.
  repeat constructor; simpl; intuition discriminate.
Qed.

Lemma kept_objects_get_custom k :
  ~ In k headers_to_keep -> Dict.get (kept_objects message) k = None.
Proof.
  intros Hk. unfold kept_objects. apply dict_get_tabulate_notin.
  rewrite filter_In. tauto.
Qed.

Lemma get_new_message_headers_items config ses_recipient :
  Dict.items (get_new_message_headers config ses_recipient message) =
  kept_objects message ++
  [ ("To", Plain (PyStr (recipient config)));
    ("From", Plain (PyStr (computed_from config ses_recipient)));
    ("Reply-To", reply_to_object message) ].
Proof.
  unfold get_new_message_headers, Dict.items.
  change (fold_left _ headers_to_keep Dict.empty)
    with (fold_left keep_step headers_to_keep Dict.empty).
  rewrite keep_loop; [|apply headers_to_keep_nodup|reflexivity].
  change (Dict.empty ++ ?l) with l. fold (kept_objects message).
  set (kept := kept_objects message).
  assert (HTo : Dict.get kept "To" = None)
    by (apply kept_objects_get_custom; simpl; intuition discriminate).
  assert (HFrom : Dict.get kept "From" = None)
    by (apply kept_objects_get_custom; simpl; intuition discriminate).
  assert (HReply : Dict.get kept "Reply-To" = None)
    by (apply kept_objects_get_custom; simpl; intuition discriminate).
  rewrite (dict_setitem_fresh kept "To") by assumption.
  assert (Hstep : forall v w,
    (let d := Dict.setitem (kept ++ [("To", Plain (PyStr (recipient config)))]) "From" v in
     Dict.setitem d "Reply-To" w) =
    kept ++ [("To", Plain (PyStr (recipient config))); ("From", v); ("Reply-To", w)]).
  { intros v w. cbv zeta.
    rewrite (dict_setitem_fresh _ "From")
      by (rewrite dict_get_app, HFrom; reflexivity).
    rewrite (dict_setitem_fresh _ "Reply-To")
      by (rewrite !dict_get_app, HReply; reflexivity).
    now rewrite <- !app_assoc. }
  unfold computed_from, reply_to_object.
  destruct (str_truthy (sender config));
    destruct (py_truthy (Msg.getitem message "Reply-To")); apply Hstep.
Qed.

End Rewriter.

(** ** The names of the computed mapping *)

Section MappingNames.

Lemma nodup_map_filter {A B} (f : A -> B) (P : A -> bool) (l : list A) :
  List.NoDup (map f l) -> List.NoDup (map f (List.filter P l)).
Proof.
  induction l as [|x l IH]; simpl; [trivial|].
  intros Hnd. inversion Hnd as [|? ? Hnotin Hnd']; subst.
  destruct (P x); simpl; [|auto].
  constructor; [|auto].
  intros Hin. apply Hnotin.
  apply in_map_iff in Hin as (y & <- & Hy).
  apply filter_In in Hy as [Hy _]. now apply in_map.
Qed.

Lemma nodup_map_filter_app {A B} (f : A -> B) (P : A -> bool) (l l2 : list A) :
  List.NoDup (map f (l ++ l2)) -> List.NoDup (map f (List.filter P l ++ l2)).
Proof.
  induction l as [|x l IH]; simpl; [trivial|].
  intros Hnd. inversion Hnd as [|? ? Hnotin Hnd']; subst.
  destruct (P x); simpl; [|auto].
  constructor; [|auto].
  intros Hin. apply Hnotin.
  rewrite map_app in *. apply in_app_or in Hin. apply in_or_app.
  destruct Hin as [Hin|Hin]; [left|now right].
  apply in_map_iff in Hin as (y & <- & Hy).
  apply filter_In in Hy as [Hy _]. now apply in_map.
Qed.

Lemma new_headers_names config ses_recipient (m0 : Message) :
  map fst (Dict.items (get_new_message_headers config ses_recipient m0))
  = List.filter (Msg.contains m0) headers_to_keep ++ ["To"; "From"; "Reply-To"].
Proof.
  rewrite get_new_message_headers_items. unfold kept_objects.
  rewrite map_app, map_map. simpl. now rewrite map_id.
Qed.

Lemma new_headers_names_distinct config ses_recipient (m0 : Message) :
  List.NoDup
    (map (fun e => Str.lower (fst e))
         (Dict.items (get_new_message_headers config ses_recipient m0))).
Proof.
  rewrite <- map_map, new_headers_names, <- (map_id (_ ++ _)), map_map.
  apply (nodup_map_filter_app (fun x => Str.lower (id x))).
  vm_compute. repeat constructor; simpl; intuition discriminate.
Qed.

End MappingNames.

(** ** Replacing the headers of a message *)

Section ReplaceHeaders.

Variable factory : string -> pyval -> string.

Lemma filter_none {A} (f : A -> bool) (l : list A) :
  (forall x, In x l -> f x = false) -> List.filter f l = [].
Proof.
  induction l as [|x l IH]; simpl; [reflexivity|].
  intros H. rewrite (H x) by now left. apply IH. intros y Hy. apply H. now right.
Qed.

Lemma delitem_loop_headers (ks : list string) (m : Message) :
  msg_headers (fold_left Msg.delitem ks m) =
  List.filter
    (fun kv => negb (existsb (fun k => Msg.same_name (Str.lower k) kv) ks))
    (msg_headers m).
Proof.
  revert m. induction ks as [|k ks IH]; intros m; simpl.
  - induction (msg_headers m) as [|kv l IHl]; simpl; congruence.
  - rewrite IH. simpl. clear IH.
    induction (msg_headers m) as [|kv l IHl]; simpl; [reflexivity|].
    destruct (Msg.same_name (Str.lower k) kv); simpl; [assumption|].
    destruct (existsb _ ks); simpl; congruence.
Qed.

Lemma delitem_loop_payload (ks : list string) (m : Message) :
  msg_payload (fold_left Msg.delitem ks m) = msg_payload m.
Proof.
  revert m. induction ks as [|k ks IH]; intros m; simpl; [reflexivity|].
  now rewrite IH.
Qed.

(** The first loop leaves no header, whatever the names and however
    often they occur. *)
Lemma clear_all_headers_spec (m : Message) :
  clear_all_headers m = {| msg_headers := []; msg_payload := msg_payload m |}.
Proof.
  unfold clear_all_headers.
  pose proof (delitem_loop_headers (Msg.keys m) m) as Hh.
  pose proof (delitem_loop_payload (Msg.keys m) m) as Hp.
  destruct (fold_left Msg.delitem (Msg.keys m) m) as [hs p]; simpl in *.
  subst p. f_equal. rewrite Hh.
  apply filter_none. intros x Hin.
  apply negb_false_iff, existsb_exists. exists (fst x). split.
  - unfold Msg.keys. now apply in_map.
  - unfold Msg.same_name. apply String.eqb_refl.
Qed.

Lemma no_header_of_name (m : Message) name :
  (forall kv, In kv (msg_headers m) -> Str.lower (fst kv) <> Str.lower name) ->
  List.filter (Msg.same_name (Str.lower name)) (msg_headers m) = [].
Proof.
  intros Hfresh.
  induction (msg_headers m) as [|kv l IH]; simpl; [reflexivity|].
  unfold Msg.same_name at 1.
  destruct (String.eqb_spec (Str.lower (fst kv)) (Str.lower name)) as [Heq|_].
  - exfalso. apply (Hfresh kv); [now left|assumption].
  - apply IH. intros kv' Hin. apply Hfresh. now right.
Qed.

(** Storing under a name that the message does not have yet comes down
    to the policy's reading of the value. *)
Lemma setitem_fresh (m : Message) name o :
  (forall kv, In kv (msg_headers m) -> Str.lower (fst kv) <> Str.lower name) ->
  Msg.setitem factory m name o =
  let* v := Msg.header_store_parse factory name o in
  Ok {| msg_headers := msg_headers m ++ [(name, v)]; msg_payload := msg_payload m |}.
Proof.
  intros Hfresh. unfold Msg.setitem.
  rewrite (no_header_of_name m name Hfresh). unfold Msg.header_max_count.
  now destruct (existsb _ Msg.unique_names).
Qed.

Lemma store_token_fresh (m : Message) name token :
  (forall kv, In kv (msg_headers m) -> Str.lower (fst kv) <> Str.lower name) ->
  Msg.store_token m name token =
  Ok {| msg_headers := msg_headers m ++ [(name, PyStr token)];
        msg_payload := msg_payload m |}.
Proof.
  intros Hfresh. unfold Msg.store_token.
  rewrite (no_header_of_name m name Hfresh). unfold Msg.header_max_count.
  now destruct (existsb _ Msg.unique_names).
Qed.

Lemma once_only_by_lower (a b : string) :
  Str.lower a = Str.lower b -> once_only a = once_only b.
Proof. unfold once_only, Msg.header_max_count. now intros ->. Qed.

Lemma setitem_unlimited (m : Message) name o :
  once_only name = false ->
  Msg.setitem factory m name o =
  let* v := Msg.header_store_parse factory name o in
  Ok {| msg_headers := msg_headers m ++ [(name, v)]; msg_payload := msg_payload m |}.
Proof.
  unfold once_only, Msg.setitem.
  now destruct (Msg.header_max_count name).
Qed.








Lemma stored_headers_app (es1 es2 : list (string * pyobj)) :
  stored_headers factory (es1 ++ es2)
  = let* hs1 := stored_headers factory es1 in
    let* hs2 := stored_headers factory es2 in
    Ok (hs1 ++ hs2).
Proof.
  induction es1 as [|[name v] es1 IH]; simpl.
  - now destruct (stored_headers factory es2).
  - destruct (Msg.header_store_parse factory name v) as [w|e]; [simpl|reflexivity].
    rewrite IH.
    destruct (stored_headers factory es1) as [hs1|e]; [simpl|reflexivity].
    now destruct (stored_headers factory es2).
Qed.

(** When no once-only name comes twice, nor is in the message already,
    the second loop stores what the policy makes of each entry, or ends
    with the first refusal. *)
Lemma store_all_once_only (es : list (string * pyobj)) :
  forall m : Message,
    List.NoDup (map (fun e => Str.lower (fst e))
                    (List.filter (fun e => once_only (fst e)) es)) ->
    (forall e kv, In e es -> once_only (fst e) = true -> In kv (msg_headers m) ->
                  Str.lower (fst kv) <> Str.lower (fst e)) ->
    store_all factory m es =
    let* hs := stored_headers factory es in
    Ok {| msg_headers := msg_headers m ++ hs; msg_payload := msg_payload m |}.
Proof.
  induction es as [|[name v] es IH]; intros m Hnd Hfresh; simpl.
  - rewrite app_nil_r. now destruct m.
  - simpl in Hnd.
    assert (Hset : Msg.setitem factory m name v =
                   let* w := Msg.header_store_parse factory name v in
                   Ok {| msg_headers := msg_headers m ++ [(name, w)];
                         msg_payload := msg_payload m |}).
    { destruct (once_only name) eqn:Honce.
      - apply setitem_fresh. intros kv Hkv.
        apply (Hfresh (name, v)); [now left|exact Honce|exact Hkv].
      - now apply setitem_unlimited. }
    rewrite Hset.
    destruct (Msg.header_store_parse factory name v) as [w|e]; [simpl rbind|reflexivity].
    rewrite IH; simpl msg_headers; simpl msg_payload.
    + destruct (stored_headers factory es) as [hs|e]; [simpl|reflexivity].
      now rewrite <- app_assoc.
    + destruct (once_only name); [now inversion Hnd|exact Hnd].
    + intros e kv He Honce Hkv. apply in_app_or in Hkv as [Hkv|[<-|[]]].
      * apply Hfresh; [now right|exact Honce|exact Hkv].
      * simpl fst. intros Heq.
        rewrite (once_only_by_lower name (fst e) Heq), Honce in Hnd.
        inversion Hnd as [|? ? Hnotin _]; subst. apply Hnotin. rewrite Heq.
        apply (in_map (fun e => Str.lower (fst e))). apply filter_In. auto.
Qed.

Lemma set_new_message_headers_stored (m : Message) (d : Dict.t) :
  List.NoDup (once_only_names d) ->
  set_new_message_headers factory m d =
  let* hs := stored_headers factory (Dict.items d) in
  Ok {| msg_headers := hs; msg_payload := msg_payload m |}.
Proof.
  intros Hnd. unfold set_new_message_headers.
  rewrite clear_all_headers_spec, store_all_once_only; simpl; trivial.
  intros ? ? _ _ [].
Qed.

(** The kept entries are header objects read under their own names: the
    policy stores each as it is. *)
Lemma stored_kept_objects (m0 : Message) :
  stored_headers factory (kept_objects m0) = Ok (kept_headers m0).
Proof.
  unfold kept_objects, kept_headers.
  induction headers_to_keep as [|h hs IH]; simpl; [reflexivity|].
  destruct (Msg.contains m0 h) eqn:Hc; simpl; [|exact IH].
  rewrite store_same_name by assumption. simpl. now rewrite IH.
Qed.

(** Applying the computed mapping: the kept headers go in as they are,
    and To, From and Reply-To as the policy stores them. *)
Lemma set_new_message_headers_computed config ses_recipient (original message : Message) :
  set_new_message_headers factory message
    (get_new_message_headers config ses_recipient original)
  = let* to := Msg.header_store_parse factory "To" (Plain (PyStr (recipient config))) in
    let* from :=
      Msg.header_store_parse factory "From"
                             (Plain (PyStr (computed_from config ses_recipient))) in
    let* reply_to :=
      if py_truthy (Msg.getitem original "Reply-To")
      then Ok (Msg.getitem original "Reply-To")
      else Msg.header_store_parse factory "Reply-To"
                                  (Plain (Msg.getitem original "From")) in
    Ok {| msg_headers :=
            kept_headers original
            ++ [("To", to); ("From", from); ("Reply-To", reply_to)];
          msg_payload := msg_payload message |}.
Proof.
  rewrite set_new_message_headers_stored
    by (apply nodup_map_filter, new_headers_names_distinct).
  rewrite get_new_message_headers_items, stored_headers_app, stored_kept_objects.
  cbn [rbind stored_headers].
  rewrite store_reply_to_object.
  destruct (Msg.header_store_parse factory "To" (Plain (PyStr (recipient config))))
    as [to|e]; [cbn [rbind]|reflexivity].
  destruct (Msg.header_store_parse factory "From"
              (Plain (PyStr (computed_from config ses_recipient))))
    as [from|e]; [cbn [rbind]|reflexivity].
  destruct (py_truthy (Msg.getitem original "Reply-To")); [reflexivity|].
  now destruct (Msg.header_store_parse factory "Reply-To"
                  (Plain (Msg.getitem original "From"))).
Qed.

End ReplaceHeaders.

(** ** The rewriting rules *)

Section RewritingRules.

Variable config : RoutingConfig.
Variable ses_recipient : string.
Variable message : Message.

Let new_headers := get_new_message_headers config ses_recipient message.

Lemma new_headers_get_custom k :
  ~ In k headers_to_keep ->
  Dict.get new_headers k =
  Dict.get [ ("To", Plain (PyStr (recipient config)));
             ("From", Plain (PyStr (computed_from config ses_recipient)));
             ("Reply-To", reply_to_object message) ] k.
Proof.
  intros Hk. unfold new_headers.
  change (get_new_message_headers config ses_recipient message)
    with (Dict.items (get_new_message_headers config ses_recipient message)).
  rewrite get_new_message_headers_items, dict_get_app.
  now rewrite kept_objects_get_custom.
Qed.

(** C8. The computed To is [config.recipient], whatever the message
    and whatever the verified recipient. *)
Theorem to_is_config_recipient :
  Dict.get (get_new_message_headers config ses_recipient message) "To"
  = Some (PyStr (recipient config)).
Proof.
  fold new_headers. rewrite new_headers_get_custom; [reflexivity|].
  simpl; intuition discriminate.
Qed.

(** C7, as amended. The computed From is the sender override when that
    is a non-empty string and the verified recipient otherwise; it is
    the same for every original message, so the original From header
    plays no part in it. *)
Theorem from_is_override_or_recipient :
  Dict.get (get_new_message_headers config ses_recipient message) "From"
  = Some (PyStr (match sender config with
                 | String _ _ => sender config
                 | EmptyString => ses_recipient
                 end))
  /\ forall other : Message,
      Dict.get (get_new_message_headers config ses_recipient other) "From"
      = Dict.get (get_new_message_headers config ses_recipient message) "From".
Proof.
  assert (H : forall m, Dict.get (get_new_message_headers config ses_recipient m) "From"
                        = Some (PyStr (computed_from config ses_recipient))).
  { intros m.
    change (get_new_message_headers config ses_recipient m)
      with (Dict.items (get_new_message_headers config ses_recipient m)).
    rewrite get_new_message_headers_items, dict_get_app.
    rewrite kept_objects_get_custom; [reflexivity|].
    simpl; intuition discriminate. }
  split.
  - rewrite H. unfold computed_from. now destruct (sender config).
  - intros other. now rewrite !H.
Qed.

(** C5. The computed Reply-To is the original Reply-To when the message
    has one and it is not empty, and the original From otherwise. *)
Theorem reply_to_rule :
  Dict.get (get_new_message_headers config ses_recipient message) "Reply-To"
  = Some (match Msg.getitem message "Reply-To" with
          | PyStr (String c s) => PyStr (String c s)
          | PyStr EmptyString | PyNone => Msg.getitem message "From"
          end).
Proof.
  fold new_headers. rewrite new_headers_get_custom.
  - transitivity (Some (printed (reply_to_object message))); [reflexivity|].
    rewrite printed_reply_to_object. unfold computed_reply_to.
    now destruct (Msg.getitem message "Reply-To") as [|[|c s]].
  - simpl; intuition discriminate.
Qed.

Lemma getitem_of_contains name :
  Msg.contains message name = true ->
  exists k v, In (k, v) (msg_headers message)
              /\ Str.lower k = Str.lower name
              /\ Msg.getitem message name = v.
Proof.
  unfold Msg.contains, Msg.getitem. intros Hc.
  destruct (find _ (msg_headers message)) as [[k v]|] eqn:Hfind.
  - apply find_some in Hfind as [Hin Hsame]. exists k, v.
    unfold Msg.same_name in Hsame. simpl in Hsame.
    apply String.eqb_eq in Hsame. auto.
  - apply existsb_exists in Hc as (kv & Hin & Hsame).
    apply (find_none _ _ Hfind) in Hin. congruence.
Qed.

(** C6. An allow-listed header that the message has is copied with the
    value the message gives for it; one that the message lacks has no
    entry at all. *)
Theorem kept_header_rule (name : string) :
  In name headers_to_keep ->
  (Msg.contains message name = true ->
     Dict.get (get_new_message_headers config ses_recipient message) name
     = Some (Msg.getitem message name)
     /\ exists k v, In (k, v) (msg_headers message)
                    /\ Str.lower k = Str.lower name
                    /\ Msg.getitem message name = v)
  /\ (Msg.contains message name = false ->
        Dict.get (get_new_message_headers config ses_recipient message) name = None
        /\ forall v, ~ In (name, v)
                       (Dict.items (get_new_message_headers config ses_recipient message))).
Proof.
  intros Hname.
  assert (Hcustom : forall v, ~ In (name, v)
            [ ("To", Plain (PyStr (recipient config)));
              ("From", Plain (PyStr (computed_from config ses_recipient)));
              ("Reply-To", reply_to_object message) ]).
  { intros v Hin. simpl in Hname, Hin.
    repeat destruct Hname as [<-|Hname]; try contradiction;
      repeat destruct Hin as [Hin|Hin]; try discriminate; contradiction. }
  assert (Hget : Dict.get
            [ ("To", Plain (PyStr (recipient config)));
              ("From", Plain (PyStr (computed_from config ses_recipient)));
              ("Reply-To", reply_to_object message) ] name = None).
  { simpl in Hname. repeat destruct Hname as [<-|Hname]; try contradiction; reflexivity. }
  change (Dict.get (get_new_message_headers config ses_recipient message) name)
    with (Dict.get (Dict.items (get_new_message_headers config ses_recipient message)) name).
  rewrite get_new_message_headers_items, dict_get_app. unfold kept_objects.
  split; intros Hc.
  - rewrite dict_get_tabulate_in by (apply filter_In; auto).
    rewrite printed_getitem_obj.
    split; [reflexivity|]. now apply getitem_of_contains.
  - rewrite dict_get_tabulate_notin
      by (rewrite filter_In; intros [_ Hc']; congruence).
    split; [assumption|].
    intros v Hin. apply in_app_or in Hin as [Hin|Hin].
    + apply in_map_iff in Hin as (h & Heq & Hh). inversion Heq; subst.
      apply filter_In in Hh as [_ Hc']. congruence.
    + now apply (Hcustom v).
Qed.

End RewritingRules.

(** C6 on the message of the unit tests: Subject is copied, and there is
    no Content-Disposition. *)
Lemma kept_header_rule_witness :
  Dict.get (get_new_message_headers
              Examples.config_default "code@coder.dev" Examples.multiple_recipients)
           "Subject"
  = Some (PyStr "test 3 addresses")
  /\ Dict.get (get_new_message_headers
                 Examples.config_default "code@coder.dev" Examples.multiple_recipients)
              "Content-Disposition"
     = None.
Proof.
  split.
  - refine (proj1 (proj1 (@kept_header_rule Examples.config_default "code@coder.dev"
                            Examples.multiple_recipients "Subject" _) _)).
    + simpl. tauto.
    + reflexivity.
  - refine (proj1 (proj2 (@kept_header_rule Examples.config_default "code@coder.dev"
                            Examples.multiple_recipients "Content-Disposition" _) _)).
    + simpl. tauto.
    + reflexivity.
Defined.

(** C7 as stated fails: a message that the verified address sent to
    itself is forwarded with a From equal to its original From. *)
Lemma from_can_equal_original_from :
  Msg.getitem Examples.self_addressed "From" = PyStr "code@coder.dev"
  /\ Dict.get (get_new_message_headers
                 Examples.config_default "code@coder.dev" Examples.self_addressed)
              "From"
     = Some (Msg.getitem Examples.self_addressed "From").
Proof. split; reflexivity. Qed.

(** ** Looking a header up *)

Section Lookup.

Lemma find_app_l {A} (f : A -> bool) (l1 l2 : list A) :
  find f (l1 ++ l2) = match find f l1 with Some x => Some x | None => find f l2 end.
Proof.
  induction l1 as [|x l1 IH]; simpl; [reflexivity|]. now destruct (f x).
Qed.

Lemma find_none_iff {A} (f : A -> bool) (l : list A) :
  (forall x, In x l -> f x = false) -> find f l = None.
Proof.
  induction l as [|x l IH]; simpl; [reflexivity|].
  intros H. rewrite (H x) by now left. apply IH. intros y Hy. apply H. now right.
Qed.

Lemma find_filter_implied {A} (f g : A -> bool) (l : list A) :
  (forall x, f x = true -> g x = true) -> find f (List.filter g l) = find f l.
Proof.
  intros Hfg. induction l as [|x l IH]; simpl; [reflexivity|].
  destruct (g x) eqn:Hg; simpl.
  - now rewrite IH.
  - destruct (f x) eqn:Hf; [|assumption].
    apply Hfg in Hf. congruence.
Qed.

Lemma replace_first_skip lname val (hs1 : list (string * pyval)) kv hs2 :
  (forall kv', In kv' hs1 -> Msg.same_name lname kv' = false) ->
  Msg.same_name lname kv = true ->
  Msg.replace_first lname val (hs1 ++ kv :: hs2) = Some (hs1 ++ (fst kv, val) :: hs2).
Proof.
  intros Hskip Hkv. induction hs1 as [|x hs1 IH]; simpl.
  - now rewrite Hkv.
  - rewrite (Hskip x) by now left.
    rewrite IH; [reflexivity|]. intros y Hy. apply Hskip. now right.
Qed.

Lemma getitem_skip (hs1 hs2 : list (string * pyval)) (p q : payload) name :
  (forall kv, In kv hs1 -> Msg.same_name (Str.lower name) kv = false) ->
  Msg.getitem {| msg_headers := hs1 ++ hs2; msg_payload := p |} name
  = Msg.getitem {| msg_headers := hs2; msg_payload := q |} name.
Proof.
  intros H. unfold Msg.getitem. simpl.
  now rewrite find_app_l, (find_none_iff _ _ H).
Qed.

Lemma kept_headers_not_custom (m : Message) (lname : string) :
  ~ In lname (map Str.lower headers_to_keep) ->
  forall kv, In kv (kept_headers m) -> Msg.same_name lname kv = false.
Proof.
  intros Hl kv Hin. unfold kept_headers in Hin.
  apply in_map_iff in Hin as (h & <- & Hh). apply filter_In in Hh as [Hh _].
  unfold Msg.same_name. simpl fst.
  destruct (String.eqb_spec (Str.lower h) lname) as [<-|]; [|reflexivity].
  exfalso. apply Hl. now apply in_map.
Qed.

(** Reading a message whose names differ from each other, ignoring
    case. *)
Lemma getitem_of_entry (hs : list (string * pyval)) (p : payload) k v :
  List.NoDup (map (fun e => Str.lower (fst e)) hs) ->
  In (k, v) hs ->
  Msg.contains {| msg_headers := hs; msg_payload := p |} k = true
  /\ Msg.getitem {| msg_headers := hs; msg_payload := p |} k = v.
Proof.
  unfold Msg.contains, Msg.getitem. simpl msg_headers.
  induction hs as [|[k' v'] hs IH]; simpl; [tauto|].
  intros Hnd Hin. inversion Hnd as [|? ? Hnotin Hnd']; subst.
  unfold Msg.same_name at 1 3. simpl fst.
  destruct Hin as [[= -> ->]|Hin].
  - now rewrite String.eqb_refl.
  - destruct (String.eqb_spec (Str.lower k') (Str.lower k)) as [Heq|_].
    + exfalso. apply Hnotin. rewrite Heq.
      now apply (in_map (fun e => Str.lower (fst e))) in Hin.
    + simpl. now apply IH.
Qed.

Lemma getitem_of_absent (hs : list (string * pyval)) (p : payload) name :
  ~ In (Str.lower name) (map (fun e => Str.lower (fst e)) hs) ->
  Msg.contains {| msg_headers := hs; msg_payload := p |} name = false
  /\ Msg.getitem {| msg_headers := hs; msg_payload := p |} name = PyNone.
Proof.
  intros Hnot.
  assert (Hall : forall kv, In kv hs -> Msg.same_name (Str.lower name) kv = false).
  { intros kv Hin. unfold Msg.same_name.
    destruct (String.eqb_spec (Str.lower (fst kv)) (Str.lower name)) as [Heq|]; [|reflexivity].
    exfalso. apply Hnot. rewrite <- Heq.
    now apply (in_map (fun e => Str.lower (fst e))). }
  unfold Msg.contains, Msg.getitem. simpl msg_headers. split.
  - destruct (existsb _ hs) eqn:Hex; [|reflexivity].
    apply existsb_exists in Hex as (kv & Hin & Hsame). rewrite Hall in Hsame; congruence.
  - now rewrite (find_none_iff _ _ Hall).
Qed.

Lemma contains_by_lower (m : Message) name name' :
  Str.lower name = Str.lower name' -> Msg.contains m name = Msg.contains m name'.
Proof. unfold Msg.contains. now intros ->. Qed.

End Lookup.

(** ** The rewritten message *)

Section Rewritten.

Variable factory : string -> pyval -> string.
Variable config : RoutingConfig.
Variable ses_recipient : string.
Variable original message rewritten : Message.

Hypothesis Happlied :
  set_new_message_headers factory message
    (get_new_message_headers config ses_recipient original) = Ok rewritten.

(** The headers of the rewritten message: the kept ones as they were,
    then To, From and Reply-To as the policy stored them. *)
Lemma rewritten_headers :
  exists reply_to,
    (if py_truthy (Msg.getitem original "Reply-To")
     then Ok (Msg.getitem original "Reply-To")
     else Msg.header_store_parse factory "Reply-To"
                                 (Plain (Msg.getitem original "From"))) = Ok reply_to
    /\ rewritten
       = {| msg_headers :=
              kept_headers original
              ++ [ ("To", PyStr (factory "To" (PyStr (recipient config))));
                   ("From", PyStr (factory "From"
                                     (PyStr (computed_from config ses_recipient))));
                   ("Reply-To", reply_to) ];
            msg_payload := msg_payload message |}.
Proof.
  pose proof Happlied as H. rewrite set_new_message_headers_computed in H.
  rewrite !store_anew in H.
  destruct (1 <? length (Str.splitlines (recipient config))); [discriminate H|].
  cbn [rbind] in H.
  destruct (1 <? length (Str.splitlines (computed_from config ses_recipient)));
    [discriminate H|].
  cbn [rbind] in H.
  match type of H with
  | rbind ?r _ = _ => destruct r as [reply_to|e] eqn:Hreply; [|discriminate H]
  end.
  cbn [rbind] in H. injection H as <-.
  exists reply_to. split; [|reflexivity].
  rewrite <- Hreply. now rewrite store_anew.
Qed.

Lemma rewritten_lower_names :
  map (fun e => Str.lower (fst e)) (msg_headers rewritten)
  = map Str.lower (List.filter (Msg.contains original) headers_to_keep)
    ++ ["to"; "from"; "reply-to"].
Proof.
  destruct rewritten_headers as (reply_to & _ & ->). simpl msg_headers.
  unfold kept_headers. now rewrite map_app, map_map.
Qed.

Lemma rewritten_names_distinct :
  List.NoDup (map (fun e => Str.lower (fst e)) (msg_headers rewritten)).
Proof.
  rewrite rewritten_lower_names.
  change ["to"; "from"; "reply-to"] with (map Str.lower ["To"; "From"; "Reply-To"]).
  rewrite <- map_app, <- (map_id (_ ++ _)), map_map.
  apply (nodup_map_filter_app (fun x => Str.lower (id x))).
  vm_compute. repeat constructor; simpl; intuition discriminate.
Qed.


Lemma rewritten_from :
  Msg.getitem rewritten "From"
  = PyStr (factory "From" (PyStr (computed_from config ses_recipient))).
Proof.
  destruct rewritten_headers as (reply_to & _ & ->).
  rewrite (getitem_skip _ _ _ NoPayload); [reflexivity|].
  apply kept_headers_not_custom. vm_compute. intuition discriminate.
Qed.

Lemma rewritten_to :
  Msg.getitem rewritten "To" = PyStr (factory "To" (PyStr (recipient config))).
Proof.
  destruct rewritten_headers as (reply_to & _ & ->).
  rewrite (getitem_skip _ _ _ NoPayload); [reflexivity|].
  apply kept_headers_not_custom. vm_compute. intuition discriminate.
Qed.

Lemma rewritten_reply_to :
  (if py_truthy (Msg.getitem original "Reply-To")
   then Ok (Msg.getitem original "Reply-To")
   else Msg.header_store_parse factory "Reply-To"
                               (Plain (Msg.getitem original "From")))
  = Ok (Msg.getitem rewritten "Reply-To").
Proof.
  destruct rewritten_headers as (reply_to & Hreply & ->). rewrite Hreply. f_equal.
  rewrite (getitem_skip _ _ _ NoPayload); [reflexivity|].
  apply kept_headers_not_custom. vm_compute. intuition discriminate.
Qed.

(** An allow-listed header of the original is read back as it was. *)
Lemma rewritten_kept name :
  In name headers_to_keep ->
  Msg.contains original name = true ->
  Msg.contains rewritten name = true
  /\ Msg.getitem rewritten name = Msg.getitem original name.
Proof.
  intros Hname Hc.
  pose proof rewritten_names_distinct as Hnd.
  destruct rewritten_headers as (reply_to & _ & Heq). rewrite Heq in *.
  apply getitem_of_entry; [exact Hnd|].
  apply in_or_app. left. unfold kept_headers.
  apply (in_map (fun header => (header, Msg.getitem original header))).
  apply filter_In. auto.
Qed.

(** Nothing else is left: a name outside the allow-list and the three
    routing headers is absent, and so is an allow-listed name that the
    original lacks. *)
Lemma rewritten_absent name :
  ~ In (Str.lower name)
       (map Str.lower (List.filter (Msg.contains original) headers_to_keep
                       ++ ["To"; "From"; "Reply-To"])) ->
  Msg.contains rewritten name = false /\ Msg.getitem rewritten name = PyNone.
Proof.
  intros Hnot.
  pose proof rewritten_lower_names as Hnames.
  destruct rewritten as [hs p]. simpl msg_headers in Hnames.
  apply getitem_of_absent. rewrite Hnames.
  now rewrite map_app in Hnot.
Qed.

End Rewritten.



(** ** The spam gate *)

Section SpamGate.

Variable entries : gmap string (gmap string string).

Let verdict_fails (verdict : string) : Prop :=
  exists entry, entries !! verdict = Some entry /\ entry !! "status" = Some "FAIL".

Let gate_step (is_fail : bool) (verdict : string) : bool :=
  match entries !! verdict with
  | Some entry =>
      let status := entry !! "status" in
      if bool_decide (status = Some "FAIL") then true else is_fail
  | None => is_fail
  end.

Lemma gate_step_true verdict : gate_step true verdict = true.
Proof.
  unfold gate_step. destruct (entries !! verdict); [|reflexivity].
  now destruct (bool_decide _).
Qed.

Lemma gate_step_false verdict :
  gate_step false verdict = true <-> verdict_fails verdict.
Proof.
  unfold gate_step, verdict_fails. destruct (entries !! verdict) as [entry|].
  - cbv zeta. destruct (bool_decide (entry !! "status" = Some "FAIL")) eqn:Hd.
    + apply bool_decide_eq_true in Hd. split; [eauto|reflexivity].
    + apply bool_decide_eq_false in Hd. split; [discriminate|].
      intros (entry' & Heq & Hfail). congruence.
  - split; [discriminate|]. intros (entry' & Heq & _). discriminate.
Qed.

Lemma gate_loop (vs : list string) (is_fail : bool) :
  fold_left gate_step vs is_fail = true <->
  is_fail = true \/ exists verdict, In verdict vs /\ verdict_fails verdict.
Proof.
  revert is_fail. induction vs as [|v vs IH]; intros is_fail; simpl.
  - split; [auto|]. intros [H|(? & [] & _)]; assumption.
  - rewrite IH. destruct is_fail.
    + rewrite gate_step_true. split; auto.
    + rewrite gate_step_false. split.
      * intros [Hv|(w & Hin & Hw)]; right; eauto.
      * intros [H|(w & [<-|Hin] & Hw)]; [discriminate|auto|eauto].
Qed.

End SpamGate.

(** C3. The gate rejects exactly when one of the five tracked verdicts is
    in the receipt with status FAIL.  A tracked verdict that is missing,
    that has no status or another status, and any entry of another name,
    cannot reject. *)
Theorem is_ses_spam_iff_some_fail (event : Event) (r : EventRecord) (rest : list EventRecord) :
  Records event = r :: rest ->
  exists rejected : bool,
    is_ses_spam event = Ok rejected
    /\ (rejected = true <->
        exists verdict entry,
          In verdict [ "spamVerdict"; "virusVerdict"; "spfVerdict";
                       "dkimVerdict"; "dmarcVerdict" ]
          /\ receipt_entries (receipt (ses r)) !! verdict = Some entry
          /\ entry !! "status" = Some "FAIL").
Proof.
  intros Hrec. unfold is_ses_spam, first_record. rewrite Hrec.
  eexists. split; [reflexivity|].
  etransitivity; [exact (gate_loop (receipt_entries (receipt (ses r))) verdicts false)|].
  unfold verdicts. split.
  - intros [H|(v & Hin & entry & H1 & H2)]; [discriminate|eauto].
  - intros (v & entry & Hin & H1 & H2). right. eauto.
Qed.

(** C3 on the event of the unit tests, whose virus verdict is FAIL. *)
Lemma is_ses_spam_iff_some_fail_witness :
  is_ses_spam Examples.event_virus = Ok true.
Proof.
  destruct (@is_ses_spam_iff_some_fail Examples.event_virus _ _ eq_refl)
    as (rejected & Hrun & Hiff).
  rewrite Hrun. f_equal. apply Hiff.
  exists "virusVerdict", (Examples.status "FAIL").
  split; [simpl; tauto|]. split; reflexivity.
Defined.

(** ** Setting a text body *)

Section TextBody.

Variable encode : string -> transfer_encoding * string.

Let no_content (kv : string * pyval) : bool :=
  negb (Str.startswith (Str.lower (fst kv)) "content-").

Lemma no_content_names (kv : string * pyval) :
  no_content kv = true ->
  Msg.same_name "content-type" kv = false
  /\ Msg.same_name "content-transfer-encoding" kv = false.
Proof.
  unfold no_content, Msg.same_name. intros H. apply negb_true_iff in H.
  split.
  - destruct (String.eqb_spec (Str.lower (fst kv)) "content-type") as [Heq|]; [|reflexivity].
    rewrite Heq in H. discriminate H.
  - destruct (String.eqb_spec (Str.lower (fst kv)) "content-transfer-encoding") as [Heq|];
      [|reflexivity].
    rewrite Heq in H. discriminate H.
Qed.

Lemma filter_idem {A} (f : A -> bool) (l : list A) :
  List.filter f (List.filter f l) = List.filter f l.
Proof.
  induction l as [|x l IH]; simpl; [reflexivity|].
  destruct (f x) eqn:Hf; simpl; [rewrite Hf, IH|]; trivial.
Qed.

Lemma contains_false (m : Message) name :
  Msg.contains m name = false ->
  forall kv, In kv (msg_headers m) -> Str.lower (fst kv) <> Str.lower name.
Proof.
  unfold Msg.contains. intros Hc kv Hin Heq.
  assert (Hex : existsb (Msg.same_name (Str.lower name)) (msg_headers m) = true).
  { apply existsb_exists. exists kv. split; [assumption|].
    unfold Msg.same_name. now apply String.eqb_eq. }
  congruence.
Qed.

Lemma contains_of_getitem (m : Message) name s :
  Msg.getitem m name = PyStr s -> Msg.contains m name = true.
Proof.
  intros Hget. destruct (Msg.contains m name) eqn:Hc; [reflexivity|].
  rewrite getitem_absent in Hget by assumption. discriminate Hget.
Qed.

(** After [clear_content], [set_content] succeeds; it leaves every
    header alone whose name neither starts with Content- nor is
    MIME-Version, and the payload is the encoded text. *)
Lemma set_content_after_clear (m : Message) (text : string) :
  exists m' : Message,
    Msg.set_content encode (Msg.clear_content m) text = Ok m'
    /\ msg_payload m' = StrPayload (snd (encode text))
    /\ forall name,
        Str.startswith (Str.lower name) "content-" = false ->
        Str.lower name <> "mime-version" ->
        Msg.getitem m' name = Msg.getitem m name.
Proof.
  set (H := List.filter no_content (msg_headers m)).
  assert (Hclear : Msg.clear_content m = {| msg_headers := H; msg_payload := NoPayload |})
    by reflexivity.
  assert (HH : forall kv, In kv H -> no_content kv = true)
    by (intros kv Hin; now apply filter_In in Hin).
  assert (Hct : Msg.contains (Msg.clear_content m) "content-type" = false).
  { rewrite Hclear. unfold Msg.contains. simpl msg_headers.
    change (Str.lower "content-type") with "content-type".
    destruct (existsb _ H) eqn:Hex; [|reflexivity].
    apply existsb_exists in Hex as (kv & Hin & Hsame).
    apply HH, no_content_names in Hin as [Hno _]. congruence. }
  unfold Msg.set_content, Msg.get_content_maintype, Msg.get_content_type.
  rewrite Hct. change (Str.before "/" "text/plain") with "text".
  change (String.eqb "text" "multipart") with false. cbv iota.
  assert (Hclear2 : Msg.clear_content (Msg.clear_content m) = Msg.clear_content m).
  { rewrite Hclear. unfold Msg.clear_content. simpl. f_equal. apply filter_idem. }
  rewrite Hclear2, Hclear.
  rewrite store_token_fresh.
  2:{ simpl. intros kv Hin Heq. apply HH, no_content_names in Hin as [Hno _].
      unfold Msg.same_name in Hno. rewrite Heq in Hno. discriminate Hno. }
  simpl rbind. destruct (encode text) as [cte data].
  simpl msg_headers. simpl msg_payload. simpl snd.
  set (ctype := PyStr ("text/plain; charset=" +:+ Str.dquote +:+ "utf-8" +:+ Str.dquote)).
  assert (Hcs : Msg.set_charset
                  {| msg_headers := H ++ [("Content-Type", PyStr "text/plain")];
                     msg_payload := StrPayload data |}
                = Ok {| msg_headers := H ++ [("Content-Type", ctype)];
                        msg_payload := StrPayload data |}).
  { assert (Hskip : forall kv, In kv H -> Msg.same_name "content-type" kv = false)
      by (intros kv Hin; now apply HH, no_content_names in Hin).
    unfold Msg.set_charset, Msg.replace_header.
    rewrite (getitem_skip H _ _ NoPayload) by exact Hskip.
    simpl msg_headers.
    now rewrite (replace_first_skip _ _ H ("Content-Type", PyStr "text/plain") []). }
  rewrite Hcs. simpl rbind.
  rewrite store_token_fresh.
  2:{ simpl. intros kv Hin Heq. apply in_app_or in Hin as [Hin|[<-|[]]].
      - apply HH, no_content_names in Hin as [_ Hno].
        unfold Msg.same_name in Hno. rewrite Heq in Hno. discriminate Hno.
      - discriminate Heq. }
  simpl rbind. simpl msg_headers. simpl msg_payload. rewrite <- app_assoc. simpl app.
  set (m3 := {| msg_headers := H ++ [("Content-Type", ctype);
                                      ("Content-Transfer-Encoding", PyStr (cte_name cte))];
                msg_payload := StrPayload data |}).
  assert (Hfind : forall extras p name,
    Str.startswith (Str.lower name) "content-" = false ->
    (forall kv, In kv extras -> Msg.same_name (Str.lower name) kv = false) ->
    Msg.getitem {| msg_headers := H ++ extras; msg_payload := p |} name
    = Msg.getitem m name).
  { intros extras p name Hname Hextras. unfold Msg.getitem. simpl msg_headers.
    rewrite find_app_l, (find_none_iff _ extras Hextras).
    unfold H. rewrite find_filter_implied; [now destruct (find _ (msg_headers m))|].
    intros kv Hsame. unfold no_content, Msg.same_name in *.
    apply String.eqb_eq in Hsame. now rewrite Hsame, Hname. }
  assert (Hextra : forall name v extra,
    Str.lower name <> Str.lower extra ->
    Msg.same_name (Str.lower name) (extra, v) = false).
  { intros name v extra Hne. unfold Msg.same_name. simpl fst.
    destruct (String.eqb_spec (Str.lower extra) (Str.lower name)); congruence. }
  assert (Hnot : forall name extra,
    Str.startswith (Str.lower name) "content-" = false ->
    Str.startswith (Str.lower extra) "content-" = true ->
    Str.lower name <> Str.lower extra).
  { intros name extra Hn He Heq. rewrite Heq in Hn. congruence. }
  destruct (Msg.contains m3 "MIME-Version") eqn:Hmv.
  - exists m3. split; [reflexivity|]. split; [reflexivity|].
    intros name Hname _. unfold m3.
    apply Hfind; [assumption|].
    intros kv [<-|[<-|[]]]; apply Hextra; now apply Hnot.
  - rewrite store_token_fresh by now apply contains_false.
    eexists. split; [reflexivity|]. split; [reflexivity|].
    intros name Hname Hmime. unfold m3. simpl.
    rewrite <- app_assoc. apply Hfind; [assumption|].
    intros kv [<-|[<-|[<-|[]]]]; apply Hextra; try (now apply Hnot).
    exact Hmime.
Qed.

Variable factory : string -> pyval -> string.

(** The error email, header by header.  From and To are taken over as
    header objects under their own names, so they are stored as they
    are; where the attempted message has none, the policy renders
    [None]. *)
Lemma create_error_email_value (attempted : Message) (traceback_string : string) :
  let text := error_text attempted traceback_string in
  let taken name :=
    if Msg.contains attempted name
    then Msg.getitem attempted name
    else PyStr (factory name PyNone) in
  create_error_email factory encode attempted traceback_string
  = Ok {| msg_headers :=
            [ ("From", taken "From");
              ("To", taken "To");
              ("Subject", PyStr (factory "Subject" (PyStr "Email forwarding error")));
              ("Content-Type",
               PyStr ("text/plain; charset=" +:+ Str.dquote +:+ "utf-8" +:+ Str.dquote));
              ("Content-Transfer-Encoding", PyStr (cte_name (fst (encode text))));
              ("MIME-Version", PyStr "1.0") ];
          msg_payload := StrPayload (snd (encode text)) |}.
Proof.
  cbv zeta. unfold create_error_email.
  rewrite !getitem_obj_spec.
  generalize (error_text attempted traceback_string) as text.
  generalize (Msg.getitem attempted "From") as from.
  generalize (Msg.getitem attempted "To") as to.
  intros to from text.
  unfold Msg.set_content.
  destruct (encode text) as [cte data].
  destruct (Msg.contains attempted "From"), (Msg.contains attempted "To");
    vm_compute; reflexivity.
Qed.

(** The error email of a message that has From and To goes where that
    message went. *)
Lemma error_email_routing (attempted : Message) (traceback_string : string) from to :
  Msg.getitem attempted "From" = PyStr from ->
  Msg.getitem attempted "To" = PyStr to ->
  exists notice,
    create_error_email factory encode attempted traceback_string = Ok notice
    /\ Msg.getitem notice "From" = PyStr from
    /\ Msg.getitem notice "To" = PyStr to
    /\ Msg.getitem notice "Subject"
       = PyStr (factory "Subject" (PyStr "Email forwarding error"))
    /\ msg_payload notice
       = StrPayload (snd (encode (error_text attempted traceback_string))).
Proof.
  intros Hfrom Hto.
  pose proof (create_error_email_value attempted traceback_string) as Hmail.
  cbv beta zeta in Hmail.
  rewrite (contains_of_getitem _ _ Hfrom), (contains_of_getitem _ _ Hto) in Hmail.
  rewrite Hfrom, Hto in Hmail.
  eexists. split; [exact Hmail|]. repeat split.
Qed.

End TextBody.

(** ** One forwarding attempt *)

Section Attempt.

Variable cfg : Settings.
Variable env : Env.

Let config : RoutingConfig := {| sender := SENDER cfg; recipient := RECIPIENT cfg |}.

(** The handler of the [except ClientError] clause in [forward_mail]. *)
Let on_error (message : Message) (e : exn) : M unit :=
  match e with
  | ClientError _ =>
      let traceback_string := format_exc env e in
      let! error_message :=
        lift (create_error_email (header_factory env) (encode_text env)
                                 message traceback_string) in
      send_raw_email cfg env error_message
  | _ => raise e
  end.

(** The fault injection of [forward_mail]. *)
Let inject (message : Message) : result Message :=
  if getenv_truthy (TEST_LARGE_BODY cfg)
  then Msg.set_content (encode_text env) (Msg.clear_content message)
                       (Str.times "x" 20000000)
  else Ok message.

Lemma fetches_snoc_fetch (h : history) bucket key :
  fetches (h ++ [S3GetObject bucket key]) = fetches h + 1.
Proof. unfold fetches. now rewrite List.filter_app, List.length_app. Qed.

Lemma fetches_snoc_send (h : history) region source destinations data :
  fetches (h ++ [SesSendRawEmail region source destinations data]) = fetches h.
Proof. unfold fetches. rewrite List.filter_app, List.length_app. simpl. lia. Qed.

Lemma forward_mail_fetch_error ses_recipient message_id (h : history) e :
  s3_get_object env h (INCOMING_EMAIL_BUCKET cfg) (object_path cfg message_id) = Raise e ->
  forward_mail cfg env ses_recipient message_id h
  = (Raise e, h ++ [S3GetObject (INCOMING_EMAIL_BUCKET cfg) (object_path cfg message_id)]).
Proof.
  intros Hfetch. unfold forward_mail, get_message_from_s3, bind, lift. now rewrite Hfetch.
Qed.

Lemma forward_mail_parse_error ses_recipient message_id (h : history) raw e :
  s3_get_object env h (INCOMING_EMAIL_BUCKET cfg) (object_path cfg message_id) = Ok raw ->
  parsebytes env raw = Raise e ->
  forward_mail cfg env ses_recipient message_id h
  = (Raise e, h ++ [S3GetObject (INCOMING_EMAIL_BUCKET cfg) (object_path cfg message_id)]).
Proof.
  intros Hfetch Hparse. unfold forward_mail, get_message_from_s3, bind, lift.
  now rewrite Hfetch, Hparse.
Qed.

(** Once the message is fetched and parsed, the attempt rewrites the
    headers, injects the fault when asked to, and comes down to the
    submission of the message it then has; an error before that ends
    the attempt. *)
Lemma forward_mail_after_parse ses_recipient message_id (h : history) raw (m : Message) :
  s3_get_object env h (INCOMING_EMAIL_BUCKET cfg) (object_path cfg message_id) = Ok raw ->
  parsebytes env raw = Ok m ->
  forward_mail cfg env ses_recipient message_id h
  = match (let* rewritten :=
             set_new_message_headers
               (header_factory env) m (get_new_message_headers config ses_recipient m) in
           inject rewritten) with
    | Ok attempted =>
        try_except (send_raw_email cfg env attempted) (on_error attempted)
          (h ++ [S3GetObject (INCOMING_EMAIL_BUCKET cfg) (object_path cfg message_id)])
    | Raise e =>
        (Raise e,
         h ++ [S3GetObject (INCOMING_EMAIL_BUCKET cfg) (object_path cfg message_id)])
    end.
Proof.
  intros Hfetch Hparse.
  unfold forward_mail, get_message_from_s3, bind, lift.
  rewrite Hfetch, Hparse. fold config.
  destruct (set_new_message_headers (header_factory env) m
              (get_new_message_headers config ses_recipient m)) as [rewritten|e];
    [cbn [rbind]|reflexivity].
  unfold inject. destruct (getenv_truthy (TEST_LARGE_BODY cfg)); [|reflexivity].
  now destruct (Msg.set_content (encode_text env) (Msg.clear_content rewritten)
                  (Str.times "x" 20000000)).
Qed.

(** The fault injection never fails, and it leaves every header alone
    whose name neither starts with Content- nor is MIME-Version. *)
Lemma inject_ok (rewritten : Message) :
  exists attempted : Message,
    inject rewritten = Ok attempted
    /\ (getenv_truthy (TEST_LARGE_BODY cfg) = false -> attempted = rewritten)
    /\ (getenv_truthy (TEST_LARGE_BODY cfg) = true ->
        Msg.set_content (encode_text env) (Msg.clear_content rewritten)
                        (Str.times "x" 20000000) = Ok attempted
        /\ msg_payload attempted
           = StrPayload (snd (encode_text env (Str.times "x" 20000000))))
    /\ forall name,
        Str.startswith (Str.lower name) "content-" = false ->
        Str.lower name <> "mime-version" ->
        Msg.getitem attempted name = Msg.getitem rewritten name.
Proof.
  unfold inject. destruct (getenv_truthy (TEST_LARGE_BODY cfg)).
  - destruct (set_content_after_clear (encode_text env) rewritten
                (Str.times "x" 20000000)) as (big & Hset & Hpayload & Hsame).
    exists big. repeat split; trivial; discriminate.
  - exists rewritten. repeat split; trivial; discriminate.
Qed.

Lemma forward_mail_store_error ses_recipient message_id (h : history) raw (m : Message) e :
  s3_get_object env h (INCOMING_EMAIL_BUCKET cfg) (object_path cfg message_id) = Ok raw ->
  parsebytes env raw = Ok m ->
  set_new_message_headers
    (header_factory env) m (get_new_message_headers config ses_recipient m) = Raise e ->
  forward_mail cfg env ses_recipient message_id h
  = (Raise e, h ++ [S3GetObject (INCOMING_EMAIL_BUCKET cfg) (object_path cfg message_id)]).
Proof.
  intros Hfetch Hparse Hstore.
  rewrite (forward_mail_after_parse ses_recipient message_id h Hfetch Hparse).
  now rewrite Hstore.
Qed.

(** When the headers are rewritten, the attempt comes down to the
    submission of a message that carries the rendered From and To. *)
Lemma forward_mail_after_fetch ses_recipient message_id (h : history) raw
      (m rewritten : Message) :
  s3_get_object env h (INCOMING_EMAIL_BUCKET cfg) (object_path cfg message_id) = Ok raw ->
  parsebytes env raw = Ok m ->
  set_new_message_headers
    (header_factory env) m (get_new_message_headers config ses_recipient m) = Ok rewritten ->
  exists attempted : Message,
    inject rewritten = Ok attempted
    /\ Msg.getitem attempted "From" = rendered_from cfg env ses_recipient
    /\ Msg.getitem attempted "To" = rendered_to cfg env
    /\ forward_mail cfg env ses_recipient message_id h
       = try_except (send_raw_email cfg env attempted) (on_error attempted)
           (h ++ [S3GetObject (INCOMING_EMAIL_BUCKET cfg) (object_path cfg message_id)]).
Proof.
  intros Hfetch Hparse Hstore.
  rewrite (forward_mail_after_parse ses_recipient message_id h Hfetch Hparse).
  rewrite Hstore. cbn [rbind].
  destruct (inject_ok rewritten) as (attempted & Hinject & _ & _ & Hsame).
  exists attempted. rewrite Hinject.
  split; [reflexivity|]. split; [|split; [|reflexivity]].
  - rewrite Hsame; [|reflexivity|discriminate].
    exact (rewritten_from _ _ _ _ _ Hstore).
  - rewrite Hsame; [|reflexivity|discriminate].
    exact (rewritten_to _ _ _ _ _ Hstore).
Qed.

(** Every attempt fetches the stored message exactly once, however it ends. *)
Lemma forward_mail_one_fetch ses_recipient message_id (h h' : history) res :
  forward_mail cfg env ses_recipient message_id h = (res, h') ->
  fetches h' = fetches h + 1.
Proof.
  unfold forward_mail, get_message_from_s3, bind, lift, try_except,
    send_raw_email, ret, raise.
  intros Hrun. destruct (getenv_truthy (TEST_LARGE_BODY cfg));
    cbv beta iota zeta in Hrun;
    repeat match type of Hrun with
           | context [match ?x with _ => _ end] =>
               lazymatch type of x with
               | prod _ _ => fail
               | _ => destruct x; cbv beta iota zeta in Hrun
               end
           end;
    inversion Hrun; subst;
    rewrite ?fetches_snoc_send, ?fetches_snoc_fetch; reflexivity.
Qed.

Lemma for_each_app {A} (pre post : list A) (body : A -> M unit) (h : history) :
  for_each (pre ++ post) body h =
  match for_each pre body h with
  | (Ok _, h1) => for_each post body h1
  | (Raise e, h1) => (Raise e, h1)
  end.
Proof.
  revert h. induction pre as [|x pre IH]; intros h; simpl; [reflexivity|].
  unfold bind. destruct (body x h) as [[[]|e] h1]; [apply IH|reflexivity].
Qed.

Lemma for_each_fetches (rs : list string) message_id (h h' : history) :
  for_each rs (fun r => forward_mail cfg env r message_id) h = (Ok tt, h') ->
  fetches h' = fetches h + length rs.
Proof.
  revert h. induction rs as [|r rs IH]; intros h; simpl.
  - unfold ret. intros [= <-]. lia.
  - unfold bind. destruct (forward_mail cfg env r message_id h) as [[[]|e] h1] eqn:Hr;
      [|discriminate].
    intros Hrest. apply IH in Hrest. apply forward_mail_one_fetch in Hr. lia.
Qed.

Lemma for_each_fetches_le (rs : list string) message_id (h h' : history) res :
  for_each rs (fun r => forward_mail cfg env r message_id) h = (res, h') ->
  fetches h' <= fetches h + length rs.
Proof.
  revert h. induction rs as [|r rs IH]; intros h; simpl.
  - unfold ret. intros [= <- <-]. lia.
  - unfold bind. destruct (forward_mail cfg env r message_id h) as [[[]|e] h1] eqn:Hr.
    + intros Hrest. apply IH in Hrest. apply forward_mail_one_fetch in Hr. lia.
    + intros [= <- <-]. apply forward_mail_one_fetch in Hr. lia.
Qed.

Lemma lambda_handler_loop (event : Event) r0 rest (h : history) :
  Records event = r0 :: rest ->
  is_ses_spam event = Ok false ->
  lambda_handler cfg env event h
  = for_each (recipients (receipt (ses r0)))
      (fun r => forward_mail cfg env r (messageId (mail (ses r0)))) h.
Proof.
  intros Hrec Hspam. unfold lambda_handler, bind, lift.
  rewrite Hspam. unfold get_ses_recipients, first_record. now rewrite Hrec.
Qed.

End Attempt.

(** ** The dispatcher *)

(** C2, as amended. A forwarding attempt whose relay submission raises a
    [ClientError] submits the forwarded message once, then builds the
    error email (the Subject that the policy makes of "Email forwarding
    error", From and To those of the attempted message, which are the
    computed From and To as the policy stored them) and submits it to
    the same From and To; the attempt ends as that second submission
    ends, so its error reaches the caller.  Nothing else is caught: an
    error of the fetch, of the parser or of the header rewriting ends
    the attempt before any submission, and any other error of the first
    submission ends it with that error, without a notification. *)
Theorem client_error_is_notified
        (cfg : Settings) (env : Env) (ses_recipient message_id : string) (h : history) :
  let bucket := INCOMING_EMAIL_BUCKET cfg in
  let key := object_path cfg message_id in
  let h1 := h ++ [S3GetObject bucket key] in
  let from := PyStr (header_factory env "From"
                       (PyStr (match SENDER cfg with
                               | String _ _ => SENDER cfg
                               | EmptyString => ses_recipient
                               end))) in
  let to := PyStr (header_factory env "To" (PyStr (RECIPIENT cfg))) in
  let submit (msg : Message) := SesSendRawEmail (REGION cfg) from [to] (as_string env msg) in
  let answer (hist : history) (msg : Message) :=
    ses_send_raw_email env hist (REGION cfg) from [to] (as_string env msg) in
  let rewrite_headers (m : Message) :=
    set_new_message_headers
      (header_factory env) m
      (get_new_message_headers {| sender := SENDER cfg; recipient := RECIPIENT cfg |}
                               ses_recipient m) in
  let run := forward_mail cfg env ses_recipient message_id h in
  (forall e, s3_get_object env h bucket key = Raise e -> run = (Raise e, h1))
  /\ (forall raw e,
        s3_get_object env h bucket key = Ok raw ->
        parsebytes env raw = Raise e ->
        run = (Raise e, h1))
  /\ (forall raw m e,
        s3_get_object env h bucket key = Ok raw ->
        parsebytes env raw = Ok m ->
        rewrite_headers m = Raise e ->
        run = (Raise e, h1))
  /\ (forall raw m rewritten,
        s3_get_object env h bucket key = Ok raw ->
        parsebytes env raw = Ok m ->
        rewrite_headers m = Ok rewritten ->
        exists attempted : Message,
          let h2 := h1 ++ [submit attempted] in
          Msg.getitem attempted "From" = from
          /\ Msg.getitem attempted "To" = to
          /\ (getenv_truthy (TEST_LARGE_BODY cfg) = false -> attempted = rewritten)
          /\ (forall id, answer h1 attempted = Ok id -> run = (Ok tt, h2))
          /\ (forall e, answer h1 attempted = Raise e ->
                        (forall code, e <> ClientError code) ->
                        run = (Raise e, h2))
          /\ (forall code, answer h1 attempted = Raise (ClientError code) ->
                exists notice : Message,
                  let h3 := h2 ++ [submit notice] in
                  create_error_email (header_factory env) (encode_text env) attempted
                                     (format_exc env (ClientError code)) = Ok notice
                  /\ Msg.getitem notice "Subject"
                     = PyStr (header_factory env "Subject" (PyStr "Email forwarding error"))
                  /\ Msg.getitem notice "From" = from
                  /\ Msg.getitem notice "To" = to
                  /\ (forall id, answer h2 notice = Ok id -> run = (Ok tt, h3))
                  /\ (forall e, answer h2 notice = Raise e -> run = (Raise e, h3)))).
Proof.
  cbv zeta. split; [|split; [|split]].
  - intros e Hfetch. now apply forward_mail_fetch_error.
  - intros raw e Hfetch Hparse. now apply forward_mail_parse_error with (raw := raw).
  - intros raw m e Hfetch Hparse Hstore.
    now apply forward_mail_store_error with (raw := raw) (m := m).
  - intros raw m rewritten Hfetch Hparse Hstore.
    destruct (forward_mail_after_fetch cfg env ses_recipient message_id h
                Hfetch Hparse Hstore)
      as (attempted & Hinject & Hfrom & Hto & Hrun).
    assert (Hcf : rendered_from cfg env ses_recipient
                  = PyStr (header_factory env "From"
                             (PyStr (match SENDER cfg with
                                     | String _ _ => SENDER cfg
                                     | EmptyString => ses_recipient
                                     end))))
      by (unfold rendered_from, computed_from; simpl; now destruct (SENDER cfg)).
    rewrite Hcf in Hfrom. clear Hcf. unfold rendered_to in Hto.
    exists attempted. rewrite Hrun. clear Hrun.
    unfold try_except, send_raw_email. rewrite Hfrom, Hto.
    split; [reflexivity|]. split; [reflexivity|]. split; [|split; [|split]].
    + intros Hoff. destruct (inject_ok cfg env rewritten) as (a & Ha & Hsame & _).
      rewrite Hinject in Ha. injection Ha as <-. now apply Hsame.
    + intros id Hans. now rewrite Hans.
    + intros e Hans Hother. rewrite Hans.
      destruct e; try reflexivity. now destruct (Hother code).
    + intros code Hans. rewrite Hans.
      destruct (error_email_routing (encode_text env) (header_factory env) attempted
                  (format_exc env (ClientError code)) Hfrom Hto)
        as (notice & Hmail & HnF & HnT & HnS & _).
      exists notice. split; [exact Hmail|].
      split; [exact HnS|]. split; [exact HnF|]. split; [exact HnT|].
      unfold bind, lift. rewrite Hmail, HnF, HnT.
      split; intros ? Hans2; now rewrite Hans2.
Qed.

(** C2 as amended, on sample runs: a rejected submission followed by an
    accepted notification; a missing object; a fallback Reply-To that
    the policy refuses; an unreachable relay. *)
Lemma client_error_is_notified_witness :
  (exists attempted notice : Message,
     Msg.getitem notice "Subject" = PyStr "Email forwarding error"
     /\ forward_mail Examples.settings Examples.env_rejects_first
                     "code@coder.dev" "msg1" []
        = (Ok tt,
           [ S3GetObject "yourbucketname" "msg1";
             SesSendRawEmail "us-east-1" (PyStr "code@coder.dev")
                             [PyStr "to@anywhere.com"] (Examples.render attempted);
             SesSendRawEmail "us-east-1" (PyStr "code@coder.dev")
                             [PyStr "to@anywhere.com"] (Examples.render notice) ]))
  /\ forward_mail Examples.settings Examples.env_no_such_key "code@coder.dev" "msg1" []
     = (Raise (ClientError "NoSuchKey"), [S3GetObject "yourbucketname" "msg1"])
  /\ forward_mail Examples.settings Examples.env_form_feed "code@coder.dev" "msg1" []
     = (Raise (ValueError
                 "Header values may not contain linefeed or carriage return characters"),
        [S3GetObject "yourbucketname" "msg1"])
  /\ exists attempted : Message,
      forward_mail Examples.settings Examples.env_unreachable "code@coder.dev" "msg1" []
      = (Raise (OtherError "EndpointConnectionError"),
         [ S3GetObject "yourbucketname" "msg1";
           SesSendRawEmail "us-east-1" (PyStr "code@coder.dev")
                           [PyStr "to@anywhere.com"] (Examples.render attempted) ]).
Proof.
  split; [|split; [|split]].
  - destruct (proj2 (proj2 (proj2 (client_error_is_notified
                                     Examples.settings Examples.env_rejects_first
                                     "code@coder.dev" "msg1" [])))
                    [] Examples.multiple_recipients _ eq_refl eq_refl eq_refl)
      as (attempted & _ & _ & _ & _ & _ & Hrejected).
    destruct (Hrejected "MessageRejected" eq_refl)
      as (notice & _ & Hsubject & _ & _ & Haccepted & _).
    exists attempted, notice. split; [exact Hsubject|].
    exact (Haccepted "0002" eq_refl).
  - exact (proj1 (client_error_is_notified
                    Examples.settings Examples.env_no_such_key "code@coder.dev" "msg1" [])
                 (ClientError "NoSuchKey") eq_refl).
  - exact (proj1 (proj2 (proj2 (client_error_is_notified
                                  Examples.settings Examples.env_form_feed
                                  "code@coder.dev" "msg1" [])))
                 [] Examples.form_feed_sender _ eq_refl eq_refl eq_refl).
  - destruct (proj2 (proj2 (proj2 (client_error_is_notified
                                     Examples.settings Examples.env_unreachable
                                     "code@coder.dev" "msg1" [])))
                    [] Examples.multiple_recipients _ eq_refl eq_refl eq_refl)
      as (attempted & _ & _ & _ & _ & Hother & _).
    exists attempted.
    apply (Hother (OtherError "EndpointConnectionError") eq_refl).
    intros code. discriminate.
Defined.

(** C2 as stated fails: when the relay cannot be reached, the submission
    raises an error that is no [ClientError]; the attempt ends with it
    after that one submission, and no error email is built or sent. *)
Lemma unreachable_relay_is_not_notified :
  forward_mail Examples.settings Examples.env_unreachable "code@coder.dev" "msg1" []
  = (Raise (OtherError "EndpointConnectionError"),
     [ S3GetObject "yourbucketname" "msg1";
       SesSendRawEmail "us-east-1" (PyStr "code@coder.dev") [PyStr "to@anywhere.com"]
                       (Examples.render
                          {| msg_headers :=
                               [ ("MIME-Version", PyStr "1.0");
                                 ("Content-Type",
                                  PyStr "multipart/alternative; boundary=0000");
                                 ("Date", PyStr "Sat, 29 Aug 2020 12:00:00 +0000");
                                 ("Subject", PyStr "test 3 addresses");
                                 ("To", PyStr "to@anywhere.com");
                                 ("From", PyStr "code@coder.dev");
                                 ("Reply-To", PyStr "Alpha Sigma <user@users.com>") ];
                             msg_payload := msg_payload Examples.multiple_recipients |}) ])
  /\ sends (snd (forward_mail Examples.settings Examples.env_unreachable
                              "code@coder.dev" "msg1" [])) = 1.
Proof. split; vm_compute; reflexivity. Qed.
(** C1, as amended. For an event that passes the spam gate the handler
    runs the attempts for the verified recipients one after another, in
    list order.  After an attempt that returns normally it goes on with
    the next recipient.  An error that leaves an attempt ends the handler
    with that error: the recipients after it are not attempted.  When the
    handler returns normally, every recipient was attempted. *)
Theorem attempts_stop_at_first_error
        (cfg : Settings) (env : Env) (event : Event)
        (r0 : EventRecord) (rest : list EventRecord) (h : history) :
  Records event = r0 :: rest ->
  is_ses_spam event = Ok false ->
  let rcpts := recipients (receipt (ses r0)) in
  let attempt := fun r => forward_mail cfg env r (messageId (mail (ses r0))) in
  lambda_handler cfg env event h = for_each rcpts attempt h
  /\ (forall pre r post h1 h2,
        rcpts = pre ++ r :: post ->
        for_each pre attempt h = (Ok tt, h1) ->
        attempt r h1 = (Ok tt, h2) ->
        lambda_handler cfg env event h = for_each post attempt h2)
  /\ (forall pre r post h1 h2 e,
        rcpts = pre ++ r :: post ->
        for_each pre attempt h = (Ok tt, h1) ->
        attempt r h1 = (Raise e, h2) ->
        lambda_handler cfg env event h = (Raise e, h2)
        /\ fetches h2 = fetches h + length pre + 1)
  /\ (forall h',
        lambda_handler cfg env event h = (Ok tt, h') ->
        fetches h' = fetches h + length rcpts).
Proof.
  intros Hrec Hspam rcpts attempt.
  pose proof (lambda_handler_loop cfg env event h Hrec Hspam) as Hloop.
  fold rcpts in Hloop. fold attempt in Hloop.
  split; [exact Hloop|]. split; [|split].
  - intros pre r post h1 h2 Hsplit Hpre Hr.
    rewrite Hloop, Hsplit, for_each_app, Hpre. simpl. unfold bind. now rewrite Hr.
  - intros pre r post h1 h2 e Hsplit Hpre Hr.
    split.
    + rewrite Hloop, Hsplit, for_each_app, Hpre. simpl. unfold bind. now rewrite Hr.
    + apply for_each_fetches in Hpre. apply forward_mail_one_fetch in Hr. lia.
  - intros h' Hrun. rewrite Hloop in Hrun. now apply for_each_fetches in Hrun.
Qed.

(** C1 as amended, on two runs with two recipients: the relay rejects
    the first submission and accepts the notification, and both
    recipients are attempted; the relay is unreachable, and the handler
    ends in the first attempt. *)
Lemma attempts_stop_at_first_error_witness :
  (exists h',
     lambda_handler Examples.settings Examples.env_rejects_first
                    Examples.event_two_recipients [] = (Ok tt, h')
     /\ fetches h' = 2)
  /\ exists h2,
      lambda_handler Examples.settings Examples.env_unreachable
                     Examples.event_two_recipients []
      = (Raise (OtherError "EndpointConnectionError"), h2)
      /\ fetches h2 = 1.
Proof.
  split.
  - eexists. split; [vm_compute; reflexivity|].
    apply (proj2 (proj2 (proj2 (@attempts_stop_at_first_error
                                  Examples.settings Examples.env_rejects_first
                                  Examples.event_two_recipients _ _ [] eq_refl eq_refl)))).
    vm_compute. reflexivity.
  - eexists.
    exact (proj1 (proj2 (proj2 (@attempts_stop_at_first_error
                                  Examples.settings Examples.env_unreachable
                                  Examples.event_two_recipients _ _ [] eq_refl eq_refl)))
                 [] "code@coder.dev" ["code2@coder.dev"] [] _
                 (OtherError "EndpointConnectionError") eq_refl eq_refl eq_refl).
Defined.

(** C1 as stated fails: with two verified recipients and a spam gate
    that passes, a failed fetch in the first attempt ends the handler;
    the store is asked once and the second recipient is never attempted. *)
Lemma second_recipient_not_attempted :
  is_ses_spam Examples.event_two_recipients = Ok false
  /\ get_ses_recipients Examples.event_two_recipients
     = Ok ["code@coder.dev"; "code2@coder.dev"]
  /\ lambda_handler Examples.settings Examples.env_no_such_key
                    Examples.event_two_recipients []
     = (Raise (ClientError "NoSuchKey"), [S3GetObject "yourbucketname" "msg1"]).
Proof. repeat split; vm_compute; reflexivity. Qed.

(** C10. Only the first record counts: the message id, the recipients and
    the verdicts are those of [Records[0]], the handler does on the event
    what it does on the event cut down to that record, and it makes at
    most one attempt for each recipient of that record. *)
Theorem only_first_record_is_read
        (cfg : Settings) (env : Env) (event : Event)
        (r0 : EventRecord) (rest : list EventRecord) (h : history) :
  Records event = r0 :: rest ->
  first_record event = Ok r0
  /\ get_ses_recipients event = Ok (recipients (receipt (ses r0)))
  /\ is_ses_spam event = is_ses_spam {| Records := [r0] |}
  /\ lambda_handler cfg env event h = lambda_handler cfg env {| Records := [r0] |} h
  /\ (forall others, lambda_handler cfg env event h
                     = lambda_handler cfg env {| Records := r0 :: others |} h)
  /\ (forall res h', lambda_handler cfg env event h = (res, h') ->
                     fetches h' <= fetches h + length (recipients (receipt (ses r0)))).
Proof.
  intros Hrec.
  assert (Hsame : forall others,
    lambda_handler cfg env event h = lambda_handler cfg env {| Records := r0 :: others |} h).
  { intros others.
    unfold lambda_handler, is_ses_spam, get_ses_recipients, first_record.
    now rewrite Hrec. }
  split; [unfold first_record; now rewrite Hrec|].
  split; [unfold get_ses_recipients, first_record; now rewrite Hrec|].
  split; [unfold is_ses_spam, first_record; now rewrite Hrec|].
  split; [apply Hsame|]. split; [exact Hsame|].
  intros res h' Hrun.
  destruct (is_ses_spam event) as [[]|e] eqn:Hspam.
  - unfold lambda_handler, bind, lift, ret in Hrun.
    rewrite Hspam in Hrun. unfold first_record in Hrun. rewrite Hrec in Hrun.
    injection Hrun as _ <-. lia.
  - rewrite (lambda_handler_loop cfg env event h Hrec Hspam) in Hrun.
    now apply for_each_fetches_le in Hrun.
  - unfold is_ses_spam, first_record in Hspam. rewrite Hrec in Hspam. discriminate Hspam.
Qed.

(** C10 on an event with two records: nothing is fetched for the second. *)
Lemma only_first_record_is_read_witness :
  lambda_handler Examples.settings Examples.env_fine Examples.event_two_records []
  = lambda_handler Examples.settings Examples.env_fine
      {| Records := [Examples.record "msg1" ["code@coder.dev"] Examples.all_pass] |} []
  /\ exists h',
      lambda_handler Examples.settings Examples.env_fine Examples.event_two_records []
      = (Ok tt, h')
      /\ fetches h' <= 1.
Proof.
  pose proof (@only_first_record_is_read
                Examples.settings Examples.env_fine Examples.event_two_records
                _ _ [] eq_refl) as (_ & _ & _ & Hcut & _ & Hbound).
  split; [exact Hcut|].
  eexists. split; [vm_compute; reflexivity|].
  apply (Hbound (Ok tt)). vm_compute. reflexivity.
Defined.

(** ** What a run asks of the collaborators *)

Section Trace.

Variable cfg : Settings.
Variable env : Env.

Let config : RoutingConfig := {| sender := SENDER cfg; recipient := RECIPIENT cfg |}.

(** The three shapes of an attempt: the fetch alone, then one submission,
    then the notification. *)
Lemma forward_mail_shape ses_recipient message_id (h h' : history) (res : result unit) :
  forward_mail cfg env ses_recipient message_id h = (res, h') ->
  let fetch := S3GetObject (INCOMING_EMAIL_BUCKET cfg) (object_path cfg message_id) in
  let from := rendered_from cfg env ses_recipient in
  let to := rendered_to cfg env in
  let submit data := SesSendRawEmail (REGION cfg) from [to] data in
  let answer hist data := ses_send_raw_email env hist (REGION cfg) from [to] data in
  (h' = h ++ [fetch] /\ exists e, res = Raise e)
  \/ (exists d1, h' = h ++ [fetch; submit d1]
        /\ ((exists id, res = Ok tt /\ answer (h ++ [fetch]) d1 = Ok id)
            \/ exists e, res = Raise e))
  \/ (exists d1 d2, h' = h ++ [fetch; submit d1; submit d2]
        /\ ((exists id, res = Ok tt /\ answer (h ++ [fetch; submit d1]) d2 = Ok id)
            \/ exists e, res = Raise e)).
Proof.
  intros Hrun. cbv zeta.
  destruct (s3_get_object env h (INCOMING_EMAIL_BUCKET cfg) (object_path cfg message_id))
    as [raw|e] eqn:Hfetch.
  2:{ left. rewrite (forward_mail_fetch_error _ _ _ _ _ Hfetch) in Hrun.
      injection Hrun as <- <-. eauto. }
  destruct (parsebytes env raw) as [m|e] eqn:Hparse.
  2:{ left. rewrite (forward_mail_parse_error _ _ _ _ _ Hfetch Hparse) in Hrun.
      injection Hrun as <- <-. eauto. }
  destruct (set_new_message_headers (header_factory env) m
              (get_new_message_headers config ses_recipient m)) as [rewritten|e] eqn:Hstore.
  2:{ left. rewrite (forward_mail_store_error _ _ _ _ _ Hfetch Hparse Hstore) in Hrun.
      injection Hrun as <- <-. eauto. }
  right.
  destruct (forward_mail_after_fetch cfg env ses_recipient message_id h Hfetch Hparse Hstore)
    as (attempted & _ & Hfrom & Hto & Heq).
  rewrite Heq in Hrun. clear Heq.
  unfold try_except, send_raw_email in Hrun. rewrite Hfrom, Hto in Hrun.
  cbv zeta in Hrun.
  match type of Hrun with
  | context [ses_send_raw_email ?a ?b ?c ?d ?e ?f] =>
      destruct (ses_send_raw_email a b c d e f) as [id|e1] eqn:Hans
  end.
  { left. exists (as_string env attempted). injection Hrun as <- <-.
    rewrite <- app_assoc. split; [reflexivity|]. left. eauto. }
  destruct e1 as [ | | | |code| ];
    try (left; exists (as_string env attempted); unfold raise in Hrun;
         injection Hrun as <- <-; rewrite <- app_assoc; split; [reflexivity|]; right; eauto).
  right. exists (as_string env attempted).
  destruct (error_email_routing (encode_text env) (header_factory env) attempted
              (format_exc env (ClientError code)) Hfrom Hto)
    as (notice & Hmail & HnF & HnT & _).
  change (Msg.getitem notice "From" = rendered_from cfg env ses_recipient) in HnF.
  change (Msg.getitem notice "To" = rendered_to cfg env) in HnT.
  exists (as_string env notice).
  unfold bind, lift in Hrun. rewrite Hmail, HnF, HnT in Hrun.
  rewrite <- !app_assoc in Hrun. simpl app in Hrun.
  match type of Hrun with
  | context [ses_send_raw_email ?a ?b ?c ?d ?e ?f] =>
      destruct (ses_send_raw_email a b c d e f) as [id|e2] eqn:Hans2
  end; injection Hrun as <- <-; (split; [reflexivity|]); [left|right]; eauto.
Qed.

Lemma fetches_app (h1 h2 : history) : fetches (h1 ++ h2) = fetches h1 + fetches h2.
Proof. unfold fetches. now rewrite List.filter_app, List.length_app. Qed.

Lemma sends_app (h1 h2 : history) : sends (h1 ++ h2) = sends h1 + sends h2.
Proof. unfold sends. now rewrite List.filter_app, List.length_app. Qed.

Lemma forward_mail_trace ses_recipient message_id (h h' : history) (res : result unit) :
  forward_mail cfg env ses_recipient message_id h = (res, h') ->
  exists new,
    h' = h ++ new
    /\ Forall (attempt_call cfg env message_id ses_recipient) new
    /\ sends new <= 2.
Proof.
  intros Hrun. apply forward_mail_shape in Hrun. cbv zeta in Hrun.
  destruct Hrun as [[-> _]|[(d1 & -> & _)|(d1 & d2 & -> & _)]];
    eexists; (split; [reflexivity|]); (split; [|cbv; lia]);
    repeat constructor.
Qed.

Lemma for_each_trace (rs : list string) message_id (h h' : history) (res : result unit) :
  for_each rs (fun r => forward_mail cfg env r message_id) h = (res, h') ->
  exists new,
    h' = h ++ new
    /\ Forall (fun c => exists r, In r rs /\ attempt_call cfg env message_id r c) new
    /\ sends new <= 2 * length rs.
Proof.
  revert h. induction rs as [|r rs IH]; intros h; simpl.
  - unfold ret. intros [= <- <-]. exists []. rewrite app_nil_r.
    repeat split; [constructor|cbv; lia].
  - unfold bind.
    destruct (forward_mail cfg env r message_id h) as [[[]|e] h1] eqn:Hr; intros Hrest.
    + apply forward_mail_trace in Hr as (new1 & -> & Hall1 & Hs1).
      apply IH in Hrest as (new2 & -> & Hall2 & Hs2).
      exists (new1 ++ new2). rewrite app_assoc. split; [reflexivity|]. split.
      * apply Forall_app. split.
        -- eapply List.Forall_impl; [|exact Hall1]. intros c Hc. exists r. auto.
        -- eapply List.Forall_impl; [|exact Hall2]. intros c (r' & Hin & Hc). exists r'. auto.
      * rewrite sends_app. lia.
    + injection Hrest as <- <-.
      apply forward_mail_trace in Hr as (new1 & -> & Hall1 & Hs1).
      exists new1. split; [reflexivity|]. split.
      * eapply List.Forall_impl; [|exact Hall1]. intros c Hc. exists r. auto.
      * lia.
Qed.

Lemma lambda_handler_trace (event : Event) r0 rest (h h' : history) (res : result unit) :
  Records event = r0 :: rest ->
  lambda_handler cfg env event h = (res, h') ->
  exists new,
    h' = h ++ new
    /\ Forall (fun c => exists r, In r (recipients (receipt (ses r0)))
                                  /\ attempt_call cfg env (messageId (mail (ses r0))) r c) new
    /\ sends new <= 2 * length (recipients (receipt (ses r0))).
Proof.
  intros Hrec Hrun.
  destruct (is_ses_spam event) as [[]|e] eqn:Hspam.
  - unfold lambda_handler, bind, lift, ret in Hrun.
    rewrite Hspam in Hrun. unfold first_record in Hrun. rewrite Hrec in Hrun.
    injection Hrun as <- <-. exists []. rewrite app_nil_r.
    repeat split; [constructor|cbv; lia].
  - rewrite (lambda_handler_loop cfg env event h Hrec Hspam) in Hrun.
    now apply for_each_trace in Hrun.
  - unfold is_ses_spam, first_record in Hspam. rewrite Hrec in Hspam. discriminate Hspam.
Qed.

End Trace.
(** ** Further properties of the handler *)

(** X1. An event that the spam gate rejects is dropped: the handler
    returns normally and calls neither the store nor the relay, however
    many recipients it lists. *)
Theorem rejected_event_makes_no_call
        (cfg : Settings) (env : Env) (event : Event) (h : history) :
  is_ses_spam event = Ok true ->
  lambda_handler cfg env event h = (Ok tt, h).
Proof.
  intros Hspam. unfold lambda_handler, bind, lift, ret. rewrite Hspam.
  destruct (first_record event) as [r|e] eqn:Hfirst; [reflexivity|].
  unfold is_ses_spam in Hspam. rewrite Hfirst in Hspam. discriminate Hspam.
Qed.

Lemma rejected_event_makes_no_call_witness :
  lambda_handler Examples.settings Examples.env_fine Examples.event_virus [] = (Ok tt, []).
Proof.
  apply (@rejected_event_makes_no_call
           Examples.settings Examples.env_fine Examples.event_virus []).
  vm_compute. reflexivity.
Defined.

(** X2. An event without records fails with [IndexError] before anything
    is fetched or sent; so do the two readers of the receipt. *)
Theorem empty_event_raises_index_error (event : Event) :
  Records event = [] ->
  is_ses_spam event = Raise IndexError
  /\ get_ses_recipients event = Raise IndexError
  /\ forall cfg env h, lambda_handler cfg env event h = (Raise IndexError, h).
Proof.
  intros Hrec.
  assert (Hfirst : first_record event = Raise IndexError)
    by (unfold first_record; now rewrite Hrec).
  split; [unfold is_ses_spam; now rewrite Hfirst|].
  split; [unfold get_ses_recipients; now rewrite Hfirst|].
  intros cfg env h. unfold lambda_handler, bind, lift. now rewrite Hfirst.
Qed.

Lemma empty_event_raises_index_error_witness :
  lambda_handler Examples.settings Examples.env_fine Examples.event_empty []
  = (Raise IndexError, []).
Proof.
  exact (proj2 (proj2 (@empty_event_raises_index_error Examples.event_empty eq_refl))
               Examples.settings Examples.env_fine []).
Defined.

(** X3. With an empty recipient list the handler returns normally without
    a call, whatever the verdicts say. *)
Theorem no_recipient_no_call
        (cfg : Settings) (env : Env) (event : Event)
        (r0 : EventRecord) (rest : list EventRecord) (h : history) :
  Records event = r0 :: rest ->
  recipients (receipt (ses r0)) = [] ->
  lambda_handler cfg env event h = (Ok tt, h).
Proof.
  intros Hrec Hnone.
  destruct (is_ses_spam event) as [[]|e] eqn:Hspam.
  - unfold lambda_handler, bind, lift, ret. rewrite Hspam.
    unfold first_record. now rewrite Hrec.
  - now rewrite (lambda_handler_loop cfg env event h Hrec Hspam), Hnone.
  - unfold is_ses_spam, first_record in Hspam. rewrite Hrec in Hspam. discriminate Hspam.
Qed.

Lemma no_recipient_no_call_witness :
  lambda_handler Examples.settings Examples.env_no_such_key Examples.event_no_recipient []
  = (Ok tt, []).
Proof.
  exact (@no_recipient_no_call Examples.settings Examples.env_no_such_key
                               Examples.event_no_recipient _ _ [] eq_refl eq_refl).
Defined.

(** X4. A run only extends the history, and every object it fetches is
    the one stored for the first record's message id: in the configured
    bucket, under the id itself or, with a prefix configured, under
    prefix/id. *)
Theorem handler_fetches_one_object
        (cfg : Settings) (env : Env) (event : Event)
        (r0 : EventRecord) (rest : list EventRecord) (h h' : history) (res : result unit) :
  Records event = r0 :: rest ->
  lambda_handler cfg env event h = (res, h') ->
  exists new,
    h' = h ++ new
    /\ forall bucket key,
        In (S3GetObject bucket key) new ->
        bucket = INCOMING_EMAIL_BUCKET cfg
        /\ key = match INCOMING_EMAIL_PREFIX cfg with
                 | String _ _ =>
                     INCOMING_EMAIL_PREFIX cfg +:+ "/" +:+ messageId (mail (ses r0))
                 | EmptyString => messageId (mail (ses r0))
                 end.
Proof.
  intros Hrec Hrun.
  destruct (lambda_handler_trace cfg env event h Hrec Hrun) as (new & Heq & Hall & _).
  exists new. split; [exact Heq|].
  intros bucket key Hin.
  rewrite List.Forall_forall in Hall.
  destruct (Hall _ Hin) as (r & _ & Hb & Hk).
  split; [exact Hb|]. rewrite Hk. unfold object_path.
  now destruct (INCOMING_EMAIL_PREFIX cfg).
Qed.

Lemma handler_fetches_one_object_witness :
  exists new,
    lambda_handler Examples.settings_prefixed Examples.env_fine
                   Examples.event_two_recipients [] = (Ok tt, new)
    /\ forall bucket key,
        In (S3GetObject bucket key) new ->
        bucket = "yourbucketname" /\ key = "inbox/msg1".
Proof.
  eexists. split; [vm_compute; reflexivity|].
  destruct (@handler_fetches_one_object
              Examples.settings_prefixed Examples.env_fine Examples.event_two_recipients
              _ _ [] _ (Ok tt) eq_refl ltac:(vm_compute; reflexivity))
    as (new & Heq & Hall).
  simpl app in Heq. rewrite Heq. exact Hall.
Defined.

(** X5. Every submission of a run goes through the configured region to
    one destination, the configured recipient as the policy renders it
    in the To header; its source is the sender override when one is set
    and a verified recipient of the first record otherwise, as the policy
    renders it in the From header.  No address from a header of the
    stored message is used. *)
Theorem handler_mails_only_the_recipient
        (cfg : Settings) (env : Env) (event : Event)
        (r0 : EventRecord) (rest : list EventRecord) (h h' : history) (res : result unit) :
  Records event = r0 :: rest ->
  lambda_handler cfg env event h = (res, h') ->
  exists new,
    h' = h ++ new
    /\ forall region source destinations data,
        In (SesSendRawEmail region source destinations data) new ->
        region = REGION cfg
        /\ destinations = [PyStr (header_factory env "To" (PyStr (RECIPIENT cfg)))]
        /\ exists r, In r (recipients (receipt (ses r0)))
                     /\ source = PyStr (header_factory env "From"
                                          (PyStr (match SENDER cfg with
                                                  | String _ _ => SENDER cfg
                                                  | EmptyString => r
                                                  end))).
Proof.
  intros Hrec Hrun.
  destruct (lambda_handler_trace cfg env event h Hrec Hrun) as (new & Heq & Hall & _).
  exists new. split; [exact Heq|].
  intros region source destinations data Hin.
  rewrite List.Forall_forall in Hall.
  destruct (Hall _ Hin) as (r & Hr & Hreg & Hsrc & Hdst).
  split; [exact Hreg|]. split; [exact Hdst|].
  exists r. split; [exact Hr|]. rewrite Hsrc. unfold rendered_from, computed_from. simpl.
  now destruct (SENDER cfg).
Qed.

(** X5 on a run with a recipient configured in angle brackets: the
    three submissions go to the address without them. *)
Lemma handler_mails_only_the_recipient_witness :
  exists new,
    lambda_handler Examples.settings_bracketed Examples.env_rejects_first
                   Examples.event_two_recipients [] = (Ok tt, new)
    /\ sends new = 3
    /\ forall region source destinations data,
        In (SesSendRawEmail region source destinations data) new ->
        destinations = [PyStr "to@anywhere.com"].
Proof.
  eexists. split; [vm_compute; reflexivity|]. split; [reflexivity|].
  destruct (@handler_mails_only_the_recipient
              Examples.settings_bracketed Examples.env_rejects_first
              Examples.event_two_recipients
              _ _ [] _ (Ok tt) eq_refl ltac:(vm_compute; reflexivity))
    as (new & Heq & Hall).
  simpl app in Heq. rewrite Heq.
  intros region source destinations data Hin.
  exact (proj1 (proj2 (Hall region source destinations data Hin))).
Defined.

(** X6. An attempt returns normally only when the relay accepted its last
    submission: the history ends with a submission, from the rendered
    From to the rendered To, that the relay answered with a message id. *)
Theorem normal_return_means_accepted_submission
        (cfg : Settings) (env : Env) (ses_recipient message_id : string) (h h' : history) :
  forward_mail cfg env ses_recipient message_id h = (Ok tt, h') ->
  exists hist data id,
    let source := PyStr (header_factory env "From"
                           (PyStr (match SENDER cfg with
                                   | String _ _ => SENDER cfg
                                   | EmptyString => ses_recipient
                                   end))) in
    let destination := PyStr (header_factory env "To" (PyStr (RECIPIENT cfg))) in
    h' = hist ++ [SesSendRawEmail (REGION cfg) source [destination] data]
    /\ ses_send_raw_email env hist (REGION cfg) source [destination] data = Ok id.
Proof.
  intros Hrun. apply forward_mail_shape in Hrun. cbv zeta in Hrun.
  assert (Hcf : rendered_from cfg env ses_recipient
                = PyStr (header_factory env "From"
                           (PyStr (match SENDER cfg with
                                   | String _ _ => SENDER cfg
                                   | EmptyString => ses_recipient
                                   end))))
    by (unfold rendered_from, computed_from; simpl; now destruct (SENDER cfg)).
  rewrite Hcf in Hrun. clear Hcf. unfold rendered_to in Hrun. cbv zeta.
  destruct Hrun as [(_ & e & He)|[(d1 & -> & Hres)|(d1 & d2 & -> & Hres)]];
    [discriminate He| |].
  - destruct Hres as [(id & _ & Hans)|(e & He)]; [|discriminate He].
    eexists _, d1, id. split; [|exact Hans]. now rewrite <- app_assoc.
  - destruct Hres as [(id & _ & Hans)|(e & He)]; [|discriminate He].
    eexists _, d2, id. split; [|exact Hans]. now rewrite <- app_assoc.
Qed.

Lemma normal_return_means_accepted_submission_witness :
  exists hist data id,
    snd (forward_mail Examples.settings_bracketed Examples.env_rejects_first
                      "code@coder.dev" "msg1" [])
    = hist ++ [SesSendRawEmail "us-east-1" (PyStr "code@coder.dev")
                               [PyStr "to@anywhere.com"] data]
    /\ ses_send_raw_email Examples.env_rejects_first hist "us-east-1"
                          (PyStr "code@coder.dev") [PyStr "to@anywhere.com"] data
       = Ok id.
Proof.
  destruct (@normal_return_means_accepted_submission
              Examples.settings_bracketed Examples.env_rejects_first
              "code@coder.dev" "msg1" []
              (snd (forward_mail Examples.settings_bracketed Examples.env_rejects_first
                                 "code@coder.dev" "msg1" []))
              ltac:(vm_compute; reflexivity))
    as (hist & data & id & Heq & Hans).
  exists hist, data, id. split; [exact Heq|exact Hans].
Defined.



(** ** What is handed to the relay *)

Section Submitted.

Variable cfg : Settings.
Variable env : Env.

Let config : RoutingConfig := {| sender := SENDER cfg; recipient := RECIPIENT cfg |}.

(** The handler of the [except ClientError] clause in [forward_mail]. *)
Let on_error (message : Message) (e : exn) : M unit :=
  match e with
  | ClientError _ =>
      let traceback_string := format_exc env e in
      let! error_message :=
        lift (create_error_email (header_factory env) (encode_text env)
                                 message traceback_string) in
      send_raw_email cfg env error_message
  | _ => raise e
  end.

Lemma first_submission (attempted : Message) (h1 : history) :
  exists res rest,
    try_except (send_raw_email cfg env attempted) (on_error attempted) h1
    = (res, h1 ++ SesSendRawEmail (REGION cfg) (Msg.getitem attempted "From")
                                  [Msg.getitem attempted "To"] (as_string env attempted)
                  :: rest).
Proof.
  unfold try_except, send_raw_email. cbv zeta.
  destruct (ses_send_raw_email env h1 (REGION cfg) (Msg.getitem attempted "From")
              [Msg.getitem attempted "To"] (as_string env attempted)) as [id|e].
  - exists (Ok tt), []. reflexivity.
  - unfold on_error. destruct e as [ | | | |code| ];
      try (eexists _, []; unfold raise; reflexivity).
    unfold bind, lift.
    destruct (create_error_email (header_factory env) (encode_text env) attempted
                (format_exc env (ClientError code))) as [notice|e].
    + unfold send_raw_email. cbv zeta.
      eexists _, [_]. rewrite <- app_assoc. reflexivity.
    + eexists _, []. reflexivity.
Qed.

(** The first submission of an attempt that got as far: it carries the
    rewritten message, after the fault injection when that is on. *)
Lemma forward_mail_first_submission
      ses_recipient message_id (h : history) raw (m rewritten : Message) :
  s3_get_object env h (INCOMING_EMAIL_BUCKET cfg) (object_path cfg message_id) = Ok raw ->
  parsebytes env raw = Ok m ->
  set_new_message_headers
    (header_factory env) m (get_new_message_headers config ses_recipient m) = Ok rewritten ->
  exists attempted res rest,
    (getenv_truthy (TEST_LARGE_BODY cfg) = false -> attempted = rewritten)
    /\ (getenv_truthy (TEST_LARGE_BODY cfg) = true ->
        Msg.set_content (encode_text env) (Msg.clear_content rewritten)
                        (Str.times "x" 20000000) = Ok attempted
        /\ msg_payload attempted
           = StrPayload (snd (encode_text env (Str.times "x" 20000000))))
    /\ forward_mail cfg env ses_recipient message_id h
       = (res,
          h ++ S3GetObject (INCOMING_EMAIL_BUCKET cfg) (object_path cfg message_id)
            :: SesSendRawEmail (REGION cfg) (Msg.getitem attempted "From")
                               [Msg.getitem attempted "To"] (as_string env attempted)
            :: rest).
Proof.
  intros Hfetch Hparse Hstore.
  rewrite (forward_mail_after_parse cfg env ses_recipient message_id h Hfetch Hparse).
  fold config. rewrite Hstore. cbn [rbind].
  destruct (inject_ok cfg env rewritten) as (attempted & Hinject & Hoff & Hon & _).
  rewrite Hinject.
  destruct (first_submission attempted
              (h ++ [S3GetObject (INCOMING_EMAIL_BUCKET cfg) (object_path cfg message_id)]))
    as (res & rest & Heq).
  exists attempted, res, rest. split; [exact Hoff|]. split; [exact Hon|].
  rewrite <- app_assoc in Heq. exact Heq.
Qed.

End Submitted.



(** X9. With the large-body switch on: when the policy refuses a header
    of the computed mapping, the attempt ends with that error before the
    body is touched; otherwise the content of the rewritten message is
    replaced, and the message handed to the relay has as payload the
    encoded text of 20000000 letters x. *)
Theorem large_body_replaces_content
        (cfg : Settings) (env : Env) (ses_recipient message_id : string)
        (h : history) (raw : bytes) (m : Message) :
  getenv_truthy (TEST_LARGE_BODY cfg) = true ->
  s3_get_object env h (INCOMING_EMAIL_BUCKET cfg) (object_path cfg message_id) = Ok raw ->
  parsebytes env raw = Ok m ->
  let fetch := S3GetObject (INCOMING_EMAIL_BUCKET cfg) (object_path cfg message_id) in
  let new_headers :=
    get_new_message_headers {| sender := SENDER cfg; recipient := RECIPIENT cfg |}
                            ses_recipient m in
  match set_new_message_headers (header_factory env) m new_headers with
  | Ok rewritten =>
      exists injected res rest,
        Msg.set_content (encode_text env) (Msg.clear_content rewritten)
                        (Str.times "x" 20000000) = Ok injected
        /\ msg_payload injected
           = StrPayload (snd (encode_text env (Str.times "x" 20000000)))
        /\ forward_mail cfg env ses_recipient message_id h
           = (res,
              h ++ fetch
                :: SesSendRawEmail (REGION cfg) (Msg.getitem injected "From")
                                   [Msg.getitem injected "To"] (as_string env injected)
                :: rest)
  | Raise e =>
      forward_mail cfg env ses_recipient message_id h = (Raise e, h ++ [fetch])
  end.
Proof.
  intros Hlarge Hfetch Hparse. cbv zeta.
  destruct (set_new_message_headers _ m _) as [rewritten|e] eqn:Hstore.
  - destruct (forward_mail_first_submission cfg env ses_recipient message_id h
                Hfetch Hparse Hstore) as (injected & res & rest & _ & Hon & Hrun).
    destruct (Hon Hlarge) as [Hset Hpayload].
    exists injected, res, rest. auto.
  - now apply forward_mail_store_error with (raw := raw) (m := m).
Qed.

Lemma large_body_replaces_content_witness :
  exists injected res rest,
    msg_payload injected
    = StrPayload (snd (encode_text Examples.env_fine (Str.times "x" 20000000)))
    /\ forward_mail Examples.settings_large_body Examples.env_fine
                    "code@coder.dev" "msg1" []
       = (res,
          [] ++ S3GetObject "yourbucketname" "msg1"
             :: SesSendRawEmail "us-east-1" (Msg.getitem injected "From")
                                [Msg.getitem injected "To"]
                                (as_string Examples.env_fine injected)
             :: rest).
Proof.
  destruct (@large_body_replaces_content
              Examples.settings_large_body Examples.env_fine "code@coder.dev" "msg1" []
              [] Examples.multiple_recipients eq_refl eq_refl eq_refl)
    as (injected & res & rest & _ & Hpayload & Hrun).
  exists injected, res, rest. split; [exact Hpayload|exact Hrun].
Defined.

(** ** Reading the forwarded message *)

(** X10. Reading the message back after the computed mapping was applied
    to it without a refusal: an allow-listed header of the original is
    found with the value it had; To and From are found as the policy
    rendered the configured recipient and the computed sender; Reply-To
    is the original Reply-To when that was not empty, and otherwise what
    the policy made of the original From ([None] when the original had
    no From either); a header outside the allow-list and the three
    routing headers (Received, Cc, Bcc, ...) is gone; an allow-listed
    header that the original lacks is absent even if the message had one
    before. *)
Theorem forwarded_headers_read_back
        (factory : string -> pyval -> string)
        (config : RoutingConfig) (ses_recipient : string)
        (original message forwarded : Message) :
  set_new_message_headers factory message
    (get_new_message_headers config ses_recipient original) = Ok forwarded ->
  (forall name,
     In name headers_to_keep ->
     Msg.contains original name = true ->
     Msg.contains forwarded name = true
     /\ Msg.getitem forwarded name = Msg.getitem original name)
  /\ Msg.getitem forwarded "To" = PyStr (factory "To" (PyStr (recipient config)))
  /\ Msg.getitem forwarded "From"
     = PyStr (factory "From" (PyStr (match sender config with
                                     | String _ _ => sender config
                                     | EmptyString => ses_recipient
                                     end)))
  /\ Msg.getitem forwarded "Reply-To"
     = match Msg.getitem original "Reply-To" with
       | PyStr (String c s) => PyStr (String c s)
       | PyStr EmptyString | PyNone =>
           PyStr (factory "Reply-To" (Msg.getitem original "From"))
       end
  /\ (forall name,
        ~ In (Str.lower name)
             (map Str.lower (headers_to_keep ++ ["To"; "From"; "Reply-To"])) ->
        Msg.contains forwarded name = false /\ Msg.getitem forwarded name = PyNone)
  /\ (forall name,
        In name headers_to_keep ->
        Msg.contains original name = false ->
        Msg.contains forwarded name = false /\ Msg.getitem forwarded name = PyNone).
Proof.
  intros Happlied. split; [|split; [|split; [|split; [|split]]]].
  - intros name Hname Hc. now apply (rewritten_kept _ _ _ _ _ Happlied).
  - exact (rewritten_to _ _ _ _ _ Happlied).
  - rewrite (rewritten_from _ _ _ _ _ Happlied). unfold computed_from.
    now destruct (sender config).
  - pose proof (rewritten_reply_to _ _ _ _ _ Happlied) as Hreply.
    destruct (Msg.getitem original "Reply-To") as [|[|c s]]; simpl py_truthy in Hreply;
      cbv iota in Hreply; try (now injection Hreply as <-);
      rewrite store_anew in Hreply;
      destruct (Msg.getitem original "From") as [|s'];
      try destruct (1 <? length (Str.splitlines s')); try discriminate Hreply;
      now injection Hreply as <-.
  - intros name Hnot. apply (rewritten_absent _ _ _ _ _ Happlied).
    intros Hin. apply Hnot. rewrite map_app in *.
    apply in_app_or in Hin as [Hin|Hin]; apply in_or_app; [left|now right].
    apply in_map_iff in Hin as (k & <- & Hk). apply filter_In in Hk as [Hk _].
    now apply in_map.
  - intros name Hname Hlacks. apply (rewritten_absent _ _ _ _ _ Happlied).
    rewrite map_app. intros Hin. apply in_app_or in Hin as [Hin|Hin].
    + apply in_map_iff in Hin as (k & Heq & Hk). apply filter_In in Hk as [_ Hk].
      rewrite (contains_by_lower original k name Heq) in Hk. congruence.
    + simpl in Hname, Hin.
      repeat destruct Hname as [<-|Hname]; try contradiction;
        vm_compute in Hin; repeat destruct Hin as [Hin|Hin]; try discriminate Hin;
        contradiction.
Qed.

(** X10 on a message without From and Reply-To: the Subject is read back
    under another spelling, the Reply-To prints as None, and there is no
    Received. *)
Lemma forwarded_headers_read_back_witness :
  exists forwarded,
    set_new_message_headers
      Examples.render_header Examples.multiple_recipients
      (get_new_message_headers Examples.config_default "code@coder.dev" Examples.anonymous)
    = Ok forwarded
    /\ Msg.getitem forwarded "subject" = PyStr "no sender"
    /\ Msg.getitem forwarded "Reply-To" = PyStr "None"
    /\ Msg.getitem forwarded "Received" = PyNone
    /\ Msg.contains forwarded "Date" = false.
Proof.
  eexists. split; [vm_compute; reflexivity|].
  destruct (@forwarded_headers_read_back
              Examples.render_header Examples.config_default "code@coder.dev"
              Examples.anonymous Examples.multiple_recipients _
              ltac:(vm_compute; reflexivity))
    as (Hkept & _ & _ & Hreply & Hgone & Hlacking).
  split; [|split; [|split]].
  - exact (proj2 (Hkept "Subject" ltac:(simpl; tauto) eq_refl)).
  - exact Hreply.
  - apply Hgone. vm_compute. intuition discriminate.
  - apply Hlacking; [simpl; tauto|reflexivity].
Defined.

(** ** Applying an arbitrary mapping *)

Section AnyMapping.

Variable factory : string -> pyval -> string.



End AnyMapping.





(** ** The computed mapping as a whole *)

(** X13. The computed mapping always has To, From and Reply-To, names
    nothing but these and allow-listed headers, has between three and nine
    entries, and no two of its names agree, even ignoring case. *)
Theorem new_headers_shape
        (config : RoutingConfig) (ses_recipient : string) (message : Message) :
  let new_headers := get_new_message_headers config ses_recipient message in
  let names := map fst (Dict.items new_headers) in
  List.NoDup (map Str.lower names)
  /\ (forall k, In k names -> In k (headers_to_keep ++ ["To"; "From"; "Reply-To"]))
  /\ (In "To" names /\ In "From" names /\ In "Reply-To" names)
  /\ 3 <= length names <= 9.
Proof.
  cbv zeta.
  pose proof (new_headers_names_distinct config ses_recipient message) as Hnd.
  rewrite <- map_map in Hnd.
  split; [exact Hnd|].
  rewrite new_headers_names.
  split; [|split].
  - intros k Hin. apply in_app_or in Hin as [Hin|Hin]; apply in_or_app.
    + left. now apply filter_In in Hin.
    + now right.
  - repeat split; apply in_or_app; right; simpl; tauto.
  - rewrite List.length_app. simpl length.
    pose proof (List.filter_length_le (Msg.contains message) headers_to_keep) as Hle.
    simpl length in Hle. lia.
Qed.

(** X14. The computed mapping depends on the original message only
    through eight names: the six allow-listed headers, Reply-To and From.
    Two messages that agree on these yield the same mapping, so the
    original To, Cc, Received and all other headers, and the payload, have
    no influence. *)
Theorem new_headers_ignore_other_headers
        (config : RoutingConfig) (ses_recipient : string) (m1 m2 : Message) :
  (forall name, In name (headers_to_keep ++ ["Reply-To"; "From"]) ->
                Msg.contains m1 name = Msg.contains m2 name
                /\ Msg.getitem m1 name = Msg.getitem m2 name) ->
  get_new_message_headers config ses_recipient m1
  = get_new_message_headers config ses_recipient m2.
Proof.
  intros Hagree.
  assert (Hobj : forall name, In name (headers_to_keep ++ ["Reply-To"; "From"]) ->
                              Msg.getitem_obj m1 name = Msg.getitem_obj m2 name).
  { intros name Hin. destruct (Hagree name Hin) as [Hc Hg].
    now rewrite !getitem_obj_spec, Hc, Hg. }
  change (Dict.items (get_new_message_headers config ses_recipient m1)
          = Dict.items (get_new_message_headers config ses_recipient m2)).
  rewrite !get_new_message_headers_items.
  assert (Hkept : kept_objects m1 = kept_objects m2).
  { unfold kept_objects.
    assert (Hgen : forall names,
      (forall name, In name names ->
                    Msg.contains m1 name = Msg.contains m2 name
                    /\ Msg.getitem_obj m1 name = Msg.getitem_obj m2 name) ->
      map (fun header => (header, Msg.getitem_obj m1 header))
          (List.filter (Msg.contains m1) names)
      = map (fun header => (header, Msg.getitem_obj m2 header))
            (List.filter (Msg.contains m2) names)).
    { induction names as [|name names IH]; intros Hsub; simpl; [reflexivity|].
      destruct (Hsub name (or_introl eq_refl)) as [Hc Hg].
      rewrite Hc. destruct (Msg.contains m2 name); simpl.
      - rewrite Hg. f_equal. apply IH. intros n Hn. apply Hsub. now right.
      - apply IH. intros n Hn. apply Hsub. now right. }
    apply Hgen. intros name Hin.
    assert (Hin' : In name (headers_to_keep ++ ["Reply-To"; "From"]))
      by (apply in_or_app; now left).
    split; [apply (Hagree name Hin')|apply (Hobj name Hin')]. }
  assert (Hreply : reply_to_object m1 = reply_to_object m2).
  { unfold reply_to_object.
    rewrite (proj2 (Hagree "Reply-To" ltac:(simpl; tauto))).
    rewrite (Hobj "Reply-To" ltac:(simpl; tauto)).
    now rewrite (Hobj "From" ltac:(simpl; tauto)). }
  now rewrite Hkept, Hreply.
Qed.
Lemma new_headers_ignore_other_headers_witness :
  get_new_message_headers Examples.config_default "code@coder.dev"
                          Examples.multiple_recipients
  = get_new_message_headers Examples.config_default "code@coder.dev"
                            Examples.other_routing.
Proof.
  apply (@new_headers_ignore_other_headers
           Examples.config_default "code@coder.dev"
           Examples.multiple_recipients Examples.other_routing).
  intros name Hin. simpl in Hin.
  repeat destruct Hin as [<-|Hin]; try contradiction; split; reflexivity.
Defined.

Lemma new_headers_shape_witness :
  In "Reply-To"
     (map fst (Dict.items (get_new_message_headers
                             Examples.config_default "code@coder.dev"
                             Examples.self_addressed)))
  /\ forall k,
      In k (map fst (Dict.items (get_new_message_headers
                                   Examples.config_default "code@coder.dev"
                                   Examples.self_addressed))) ->
      k <> "Received".
Proof.
  destruct (@new_headers_shape Examples.config_default "code@coder.dev"
                               Examples.self_addressed)
    as (_ & Hnames & (_ & _ & Hreply) & _).
  split; [exact Hreply|].
  intros k Hk. apply Hnames in Hk. simpl in Hk. intros ->.
  repeat destruct Hk as [Hk|Hk]; try discriminate Hk. contradiction.
Defined.

(** ** The error email *)

Section Stripping.

Lemma append_cons (x : ascii) (a b : string) : String x a +:+ b = String x (a +:+ b).
Proof. reflexivity. Qed.

Lemma append_assoc_s (a b c : string) : (a +:+ b) +:+ c = a +:+ (b +:+ c).
Proof.
  induction a as [|x a IH]; [reflexivity|]. now rewrite !append_cons, IH.
Qed.

Lemma append_nil_s (a : string) : a +:+ "" = a.
Proof. induction a as [|x a IH]; [reflexivity|]. now rewrite append_cons, IH. Qed.

Lemma rev_onto_spec (s acc : string) : Str.rev_onto s acc = Str.rev s +:+ acc.
Proof.
  unfold Str.rev. revert acc. induction s as [|x s IH]; intros acc; simpl; [reflexivity|].
  rewrite IH, (IH (String x "")), append_assoc_s. reflexivity.
Qed.

Lemma rev_cons (x : ascii) (s : string) : Str.rev (String x s) = Str.rev s +:+ String x "".
Proof. unfold Str.rev at 1. simpl. apply rev_onto_spec. Qed.

Lemma rev_app (a b : string) : Str.rev (a +:+ b) = Str.rev b +:+ Str.rev a.
Proof.
  induction a as [|x a IH].
  - change ("" +:+ b) with b. now rewrite append_nil_s.
  - now rewrite append_cons, !rev_cons, IH, append_assoc_s.
Qed.

Lemma rev_involutive (a : string) : Str.rev (Str.rev a) = a.
Proof.
  induction a as [|x a IH]; [reflexivity|].
  now rewrite rev_cons, rev_app, IH.
Qed.

Lemma has_ink_app (a b : string) : has_ink (a +:+ b) = has_ink a || has_ink b.
Proof.
  induction a as [|x a IH]; [reflexivity|].
  rewrite append_cons. simpl. rewrite IH. now rewrite orb_assoc.
Qed.

Lemma has_ink_app_r (a b : string) : has_ink b = true -> has_ink (a +:+ b) = true.
Proof. intros Hb. rewrite has_ink_app, Hb. apply orb_true_r. Qed.

Lemma has_ink_rev (a : string) : has_ink (Str.rev a) = has_ink a.
Proof.
  induction a as [|x a IH]; [reflexivity|].
  rewrite rev_cons, has_ink_app, IH. simpl. rewrite orb_false_r. apply orb_comm.
Qed.

Lemma lstrip_app (a b : string) :
  has_ink a = true -> Str.lstrip (a +:+ b) = Str.lstrip a +:+ b.
Proof.
  induction a as [|x a IH]; [discriminate|].
  rewrite append_cons. simpl.
  destruct (Str.is_space x); simpl; auto.
Qed.

Lemma lstrip_blank_app (a b : string) :
  has_ink a = false -> Str.lstrip (a +:+ b) = Str.lstrip b.
Proof.
  induction a as [|x a IH]; [reflexivity|].
  rewrite append_cons. simpl.
  destruct (Str.is_space x); simpl; [auto|discriminate].
Qed.

Lemma rstrip_app (a b : string) :
  has_ink b = true -> Str.rstrip (a +:+ b) = a +:+ Str.rstrip b.
Proof.
  intros Hb. unfold Str.rstrip.
  rewrite rev_app, lstrip_app by now rewrite has_ink_rev.
  now rewrite rev_app, rev_involutive.
Qed.

Lemma rstrip_blank_app (a b : string) :
  has_ink b = false -> Str.rstrip (a +:+ b) = Str.rstrip a.
Proof.
  intros Hb. unfold Str.rstrip.
  now rewrite rev_app, lstrip_blank_app by now rewrite has_ink_rev.
Qed.

Lemma rstrip_cons_ink (x : ascii) (s : string) :
  Str.is_space x = false -> Str.rstrip (String x s) = String x (Str.rstrip s).
Proof.
  intros Hx. change (String x s) with (String x "" +:+ s).
  destruct (has_ink s) eqn:Hs.
  - now rewrite rstrip_app.
  - rewrite rstrip_blank_app by assumption.
    assert (Hnone : Str.rstrip s = "").
    { unfold Str.rstrip.
      rewrite <- (append_nil_s (Str.rev s)), lstrip_blank_app by now rewrite has_ink_rev.
      reflexivity. }
    rewrite Hnone. unfold Str.rstrip, Str.rev. simpl. now rewrite Hx.
Qed.

End Stripping.

(** X15. Building the error email never fails.  The email has exactly six
    headers, in this order: From and To, the Subject that the policy
    makes of the fixed string, and the three content headers of a text
    body.  A From or To that the attempted message has is taken over as
    it is; where it has none, the header is what the policy makes of
    [None].  No Reply-To, Date or other header of the attempted message
    is taken over, and the payload is the encoded text. *)
Theorem error_email_headers
        (factory : string -> pyval -> string)
        (encode : string -> transfer_encoding * string)
        (attempted_message : Message) (traceback_string : string) :
  let encoded := encode (error_text attempted_message traceback_string) in
  let taken name :=
    if Msg.contains attempted_message name
    then Msg.getitem attempted_message name
    else PyStr (factory name PyNone) in
  create_error_email factory encode attempted_message traceback_string
  = Ok {| msg_headers :=
            [ ("From", taken "From");
              ("To", taken "To");
              ("Subject", PyStr (factory "Subject" (PyStr "Email forwarding error")));
              ("Content-Type",
               PyStr ("text/plain; charset=" +:+ Str.dquote +:+ "utf-8" +:+ Str.dquote));
              ("Content-Transfer-Encoding", PyStr (cte_name (fst encoded)));
              ("MIME-Version", PyStr "1.0") ];
          msg_payload := StrPayload (snd encoded) |}.
Proof. apply create_error_email_value. Qed.

(** X16. The text of the error email is the template without its leading
    line break and without trailing white space: it starts with the fixed
    sentence, names the attempted message's Reply-To and Subject ([None]
    printed for a missing one), and ends with the traceback; when the
    traceback has a visible character the text ends with the traceback
    stripped on the right. *)
Theorem error_text_layout (attempted_message : Message) (traceback_string : string) :
  let head :=
    "There was an error forwarding an email to SES." +:+ Str.nl
    +:+ Str.nl
    +:+ "Original Sender: " +:+ py_str (Msg.getitem attempted_message "Reply-To") +:+ Str.nl
    +:+ "Original Subject: " +:+ py_str (Msg.getitem attempted_message "Subject") +:+ Str.nl
    +:+ Str.nl
    +:+ "Traceback:" in
  error_text attempted_message traceback_string
  = head +:+ Str.rstrip (Str.nl +:+ Str.nl +:+ traceback_string +:+ Str.nl +:+ "        ")
  /\ (has_ink traceback_string = true ->
      error_text attempted_message traceback_string
      = head +:+ Str.nl +:+ Str.nl +:+ Str.rstrip traceback_string).
Proof.
  cbv zeta.
  set (reply := py_str (Msg.getitem attempted_message "Reply-To")).
  set (subject := py_str (Msg.getitem attempted_message "Subject")).
  set (tail := Str.nl +:+ Str.nl +:+ traceback_string +:+ Str.nl +:+ "        ").
  assert (Hmain :
    error_text attempted_message traceback_string
    = Str.rstrip
        ("There was an error forwarding an email to SES." +:+ Str.nl +:+ Str.nl
         +:+ "Original Sender: " +:+ reply +:+ Str.nl
         +:+ "Original Subject: " +:+ subject
         +:+ Str.nl +:+ Str.nl +:+ "Traceback" +:+ String ":" tail)) by reflexivity.
  assert (Hlayout :
    Str.rstrip
      ("There was an error forwarding an email to SES." +:+ Str.nl +:+ Str.nl
       +:+ "Original Sender: " +:+ reply +:+ Str.nl
       +:+ "Original Subject: " +:+ subject
       +:+ Str.nl +:+ Str.nl +:+ "Traceback" +:+ String ":" tail)
    = "There was an error forwarding an email to SES." +:+ Str.nl +:+ Str.nl
      +:+ "Original Sender: " +:+ reply +:+ Str.nl
      +:+ "Original Subject: " +:+ subject
      +:+ Str.nl +:+ Str.nl +:+ "Traceback" +:+ String ":" (Str.rstrip tail)).
  { repeat (rewrite rstrip_app; [f_equal|repeat apply has_ink_app_r; reflexivity]).
    now apply rstrip_cons_ink. }
  rewrite !append_assoc_s. split.
  - rewrite Hmain. exact Hlayout.
  - intros Htb.
    assert (Htail : Str.rstrip tail = Str.nl +:+ Str.nl +:+ Str.rstrip traceback_string).
    { unfold tail.
      rewrite (rstrip_app Str.nl), (rstrip_app Str.nl);
        [|now rewrite has_ink_app, Htb
         |apply has_ink_app_r; now rewrite has_ink_app, Htb].
      do 2 f_equal. now apply rstrip_blank_app. }
    rewrite Hmain, Hlayout, Htail. reflexivity.
Qed.

Lemma error_text_layout_witness :
  error_text Examples.reply_to ("ClientError: too large" +:+ Str.nl)
  = "There was an error forwarding an email to SES." +:+ Str.nl
    +:+ Str.nl
    +:+ "Original Sender: My Alias <alias@alias.com>" +:+ Str.nl
    +:+ "Original Subject: test reply-to" +:+ Str.nl
    +:+ Str.nl
    +:+ "Traceback:" +:+ Str.nl
    +:+ Str.nl
    +:+ "ClientError: too large".
Proof.
  rewrite (proj2 (@error_text_layout Examples.reply_to
                    ("ClientError: too large" +:+ Str.nl)) eq_refl).
  vm_compute. reflexivity.
Defined.

(** X17. After the computed mapping was applied without a refusal, the
    Reply-To and Subject that the error email quotes from the rewritten
    message are those of the original: its Reply-To when that is not
    empty, otherwise what the policy made of its From ([None] when it
    has no From either), and its Subject ([None] when it has none).  The
    error email built from the rewritten message has that text, encoded,
    as its payload. *)
Theorem notice_quotes_the_original
        (factory : string -> pyval -> string)
        (encode : string -> transfer_encoding * string)
        (config : RoutingConfig) (ses_recipient : string)
        (original message forwarded : Message) (traceback_string : string) :
  set_new_message_headers factory message
    (get_new_message_headers config ses_recipient original) = Ok forwarded ->
  let reply_to :=
    match Msg.getitem original "Reply-To" with
    | PyStr (String c s) => PyStr (String c s)
    | PyStr EmptyString | PyNone => PyStr (factory "Reply-To" (Msg.getitem original "From"))
    end in
  let text :=
    Str.strip
      (Str.nl +:+ "There was an error forwarding an email to SES." +:+ Str.nl
       +:+ Str.nl
       +:+ "Original Sender: " +:+ py_str reply_to +:+ Str.nl
       +:+ "Original Subject: " +:+ py_str (Msg.getitem original "Subject") +:+ Str.nl
       +:+ Str.nl
       +:+ "Traceback:" +:+ Str.nl
       +:+ Str.nl
       +:+ traceback_string +:+ Str.nl
       +:+ "        ") in
  Msg.getitem forwarded "Reply-To" = reply_to
  /\ Msg.getitem forwarded "Subject" = Msg.getitem original "Subject"
  /\ error_text forwarded traceback_string = text
  /\ exists notice,
      create_error_email factory encode forwarded traceback_string = Ok notice
      /\ msg_payload notice = StrPayload (snd (encode text)).
Proof.
  intros Happlied reply_to text.
  assert (Hreply : Msg.getitem forwarded "Reply-To" = reply_to).
  { unfold reply_to.
    pose proof (rewritten_reply_to _ _ _ _ _ Happlied) as Hreply.
    destruct (Msg.getitem original "Reply-To") as [|[|c s]]; simpl py_truthy in Hreply;
      cbv iota in Hreply; try (now injection Hreply as <-);
      rewrite store_anew in Hreply;
      destruct (Msg.getitem original "From") as [|s'];
      try destruct (1 <? length (Str.splitlines s')); try discriminate Hreply;
      now injection Hreply as <-. }
  assert (Hsubject : Msg.getitem forwarded "Subject" = Msg.getitem original "Subject").
  { destruct (Msg.contains original "Subject") eqn:Hc.
    - apply (rewritten_kept _ _ _ _ _ Happlied); [simpl; tauto|exact Hc].
    - rewrite (getitem_absent _ _ Hc).
      apply (rewritten_absent _ _ _ _ _ Happlied).
      rewrite map_app. intros Hin. apply in_app_or in Hin as [Hin|Hin].
      + apply in_map_iff in Hin as (k & Heq & Hk). apply filter_In in Hk as [_ Hk].
        rewrite (contains_by_lower original k "Subject" Heq) in Hk. congruence.
      + vm_compute in Hin. repeat destruct Hin as [Hin|Hin]; try discriminate Hin.
        contradiction. }
  assert (Htext : error_text forwarded traceback_string = text).
  { unfold error_text, text. now rewrite Hreply, Hsubject. }
  split; [exact Hreply|]. split; [exact Hsubject|]. split; [exact Htext|].
  pose proof (create_error_email_value encode factory forwarded traceback_string) as Hmail.
  cbv beta zeta in Hmail. rewrite Htext in Hmail.
  eexists. split; [exact Hmail|reflexivity].
Qed.

(** X17 on a message without From and Reply-To: the error email names
    the sender as None. *)
Lemma notice_quotes_the_original_witness :
  exists forwarded,
    set_new_message_headers
      Examples.render_header Examples.anonymous
      (get_new_message_headers Examples.config_default "code@coder.dev" Examples.anonymous)
    = Ok forwarded
    /\ error_text forwarded "ClientError: too large"
       = "There was an error forwarding an email to SES." +:+ Str.nl
         +:+ Str.nl
         +:+ "Original Sender: None" +:+ Str.nl
         +:+ "Original Subject: no sender" +:+ Str.nl
         +:+ Str.nl
         +:+ "Traceback:" +:+ Str.nl
         +:+ Str.nl
         +:+ "ClientError: too large".
Proof.
  eexists. split; [vm_compute; reflexivity|].
  rewrite (proj1 (proj2 (proj2 (@notice_quotes_the_original
                                  Examples.render_header Examples.plain_encoding
                                  Examples.config_default "code@coder.dev"
                                  Examples.anonymous Examples.anonymous _
                                  "ClientError: too large"
                                  ltac:(vm_compute; reflexivity))))).
  vm_compute. reflexivity.
Defined.
